(** * User controller of the login-and-registration backend

    A shallow embedding of [src/controllers/user.controller.ts] and of the
    [User] document interface.  Handlers are written in a small monad whose
    only effect is awaiting a [UserService] method, so that every argument
    handed to the service is visible in the embedding. *)

From Stdlib Require Import String List ZArith Bool Lia.
Import ListNotations.
Open Scope string_scope.
Open Scope Z_scope.

(** ** JavaScript values *)

Set Warnings "-register-all".

(** The values that travel through the controller: request bodies, decoded
    tokens, service results and JSON response bodies.  Objects keep their
    properties in insertion order. *)
Inductive JsValue : Type :=
| JUndefined
| JNull
| JBool (b : bool)
| JNum (n : Z)
| JStr (s : string)
| JArr (items : list JsValue)
| JObj (fields : list (string * JsValue)).

Inductive JsError : Type :=
| TypeError                      (* property read on undefined or null *)
| Rejection (reason : JsValue).  (* a rejected promise of the service *)

(** Own property of an object literal; [undefined] when the key is missing. *)
Fixpoint lookup_field (k : string) (fs : list (string * JsValue)) : JsValue :=
  match fs with
  | [] => JUndefined
  | (k', v) :: rest => if String.eqb k k' then v else lookup_field k rest
  end.

(** [o.k] and [const { k } = o]: a TypeError on undefined and null, the own
    property on an object, [undefined] on the other primitives and on arrays
    (none of the keys read by the controller is a built-in property). *)
Definition get_prop (o : JsValue) (k : string) : JsError + JsValue :=
  match o with
  | JUndefined | JNull => inl TypeError
  | JObj fs => inr (lookup_field k fs)
  | _ => inr JUndefined
  end.

(** [o.k = v] on an object literal: replaces the property in place, or
    appends it. *)
Fixpoint set_field (k : string) (v : JsValue) (fs : list (string * JsValue))
  : list (string * JsValue) :=
  match fs with
  | [] => [(k, v)]
  | (k', v') :: rest =>
      if String.eqb k k' then (k', v) :: rest else (k', v') :: set_field k v rest
  end.

(** ToBoolean, as used by [?:] and [!]. *)
Definition truthy (v : JsValue) : bool :=
  match v with
  | JUndefined | JNull => false
  | JBool b => b
  | JNum n => negb (n =? 0)
  | JStr s => negb (String.eqb s "")
  | JArr _ | JObj _ => true
  end.

(** What a client reads back from [res.json(v)]: properties whose value is
    [undefined] are dropped, [undefined] array items become [null]. *)
Fixpoint toJSON (v : JsValue) : JsValue :=
  match v with
  | JArr items =>
      JArr (map (fun x => match x with JUndefined => JNull | _ => toJSON x end) items)
  | JObj fs =>
      JObj ((fix strip (l : list (string * JsValue)) : list (string * JsValue) :=
               match l with
               | [] => []
               | (k, x) :: rest =>
                   match x with
                   | JUndefined => strip rest
                   | _ => (k, toJSON x) :: strip rest
                   end
               end) fs)
  | _ => v
  end.

Definition keys (v : JsValue) : list string :=
  match v with
  | JObj fs => map fst fs
  | _ => []
  end.

(** ** The service the controller calls *)

Module UserService.

(** One constructor per method of [UserService] the controller invokes,
    with the arguments as the controller passes them. *)
Inductive Call : Type :=
| CreateUser (body : JsValue)
| GetAllUsers
| GetUser (id : JsValue)
| UpdateUser (id : JsValue) (body : JsValue)
| DeleteUser (id : JsValue)
| login (email password : JsValue)
| requestVerificationCode (id : JsValue)
| verifyUser (id : JsValue) (code : JsValue).

End UserService.

(** ** Asynchronous handlers *)

Inductive Prog (A : Type) : Type :=
| Ret (a : A)
| Throw (e : JsError)
| Await (c : UserService.Call) (k : JsValue -> Prog A).

Arguments Ret {A} a.
Arguments Throw {A} e.
Arguments Await {A} c k.

Fixpoint bind {A B : Type} (p : Prog A) (f : A -> Prog B) : Prog B :=
  match p with
  | Ret a => f a
  | Throw e => Throw e
  | Await c k => Await c (fun v => bind (k v) f)
  end.

Notation "x <- p ;; q" := (bind p (fun x => q))
  (at level 61, p at next level, right associativity).

Definition await (c : UserService.Call) : Prog JsValue := Await c Ret.

Definition lift (r : JsError + JsValue) : Prog JsValue :=
  match r with
  | inl e => Throw e
  | inr v => Ret v
  end.

(** [o.k] inside a handler. *)
Definition prop (o : JsValue) (k : string) : Prog JsValue := lift (get_prop o k).

(** An implementation of the service over a state [S]: each call returns a
    value or rejects, and leaves a new state. *)
Definition Service (S : Type) : Type :=
  UserService.Call -> S -> (JsError + JsValue) * S.

Inductive Outcome (A : Type) : Type :=
| Resolved (a : A)
| Rejected (e : JsError).

Arguments Resolved {A} a.
Arguments Rejected {A} e.

Fixpoint run {S A : Type} (svc : Service S) (p : Prog A) (s : S) : Outcome A * S :=
  match p with
  | Ret a => (Resolved a, s)
  | Throw e => (Rejected e, s)
  | Await c k =>
      match svc c s with
      | (inl e, s') => (Rejected e, s')
      | (inr v, s') => run svc (k v) s'
      end
  end.

(** The service calls a handler makes, in order. *)
Fixpoint calls {S A : Type} (svc : Service S) (p : Prog A) (s : S)
  : list UserService.Call :=
  match p with
  | Await c k =>
      c :: match svc c s with
           | (inl _, _) => []
           | (inr v, s') => calls svc (k v) s'
           end
  | _ => []
  end.

(** ** Express request and response *)

Record Request : Type := mkRequest {
  params : list (string * string);   (* req.params, filled by the router *)
  body : JsValue                     (* req.body *)
}.

Record Response : Type := mkResponse {
  locals_token : JsValue;            (* res.locals.token *)
  statusCode : Z;
  sent : option JsValue              (* the JSON body, once sent *)
}.

(** [req.params.k]; route parameters are strings. *)
Fixpoint param (k : string) (ps : list (string * string)) : JsValue :=
  match ps with
  | [] => JUndefined
  | (k', v) :: rest => if String.eqb k k' then JStr v else param k rest
  end.

(** [res.status(code)] *)
Definition status (code : Z) (res : Response) : Response :=
  {| locals_token := locals_token res; statusCode := code; sent := sent res |}.

(** [res.json(v)] *)
Definition json (v : JsValue) (res : Response) : Response :=
  {| locals_token := locals_token res; statusCode := statusCode res;
     sent := Some (toJSON v) |}.

(** ** UserController *)

Definition path : string := "/users".

Definition create (req : Request) (res : Response) : Prog Response :=
  let body := body req in
  serviceResponse <- await (UserService.CreateUser body) ;;
  flag <- prop serviceResponse "status" ;;
  let statusCode := if truthy flag then 201 else 400 in
  message <- prop serviceResponse "message" ;;
  data <- prop serviceResponse "data" ;;
  Ret (json (JObj [("message", message); ("data", data)]) (status statusCode res)).

Definition getAllUsers (req : Request) (res : Response) : Prog Response :=
  data <- await UserService.GetAllUsers ;;
  Ret (json (JObj [("data", data)]) (status 200 res)).

Definition getUserById (req : Request) (res : Response) : Prog Response :=
  let id := param "id" (params req) in
  user <- await (UserService.GetUser id) ;;
  Ret (json (JObj [("data", user)]) (status 200 res)).

Definition updateUser (req : Request) (res : Response) : Prog Response :=
  let id := param "id" (params req) in
  let body := body req in
  user <- await (UserService.UpdateUser id body) ;;
  if negb (truthy user)
  then Ret (json (JObj [("message", JStr "User not found")]) (status 404 res))
  else Ret (json (JObj [("data", user)]) (status 200 res)).

Definition deleteUser (req : Request) (res : Response) : Prog Response :=
  let id := param "id" (params req) in
  deleted <- await (UserService.DeleteUser id) ;;
  Ret (json (JObj [("data", deleted)]) (status 200 res)).

Definition login (req : Request) (res : Response) : Prog Response :=
  email <- prop (body req) "email" ;;
  password <- prop (body req) "password" ;;
  serviceResponse <- await (UserService.login email password) ;;
  flag <- prop serviceResponse "status" ;;
  if negb (truthy flag)
  then
    message <- prop serviceResponse "message" ;;
    Ret (json (JObj [("message", message)]) (status 404 res))
  else
    message <- prop serviceResponse "message" ;;
    token <- prop serviceResponse "token" ;;
    Ret (json (JObj [("data", JObj [("message", message); ("auth_token", token)])])
              (status 200 res)).

Definition requestVerification (req : Request) (res : Response) : Prog Response :=
  id <- prop (locals_token res) "id" ;;
  serviceResponse <- await (UserService.requestVerificationCode id) ;;
  flag <- prop serviceResponse "status" ;;
  let statusCode := if truthy flag then 200 else 500 in
  message <- prop serviceResponse "message" ;;
  Ret (json (JObj [("message", message)]) (status statusCode res)).

Definition verifyUser (req : Request) (res : Response) : Prog Response :=
  id <- prop (locals_token res) "id" ;;
  code <- prop (body req) "code" ;;
  serviceResponse <- await (UserService.verifyUser id code) ;;
  flag <- prop serviceResponse "verified" ;;
  let statusCode := if truthy flag then 200 else 500 in
  message <- prop serviceResponse "message" ;;
  Ret (json (JObj [("message", message)]) (status statusCode res)).

(** ** Routes *)

Inductive Method : Type := GET | POST | PUT | DELETE.

Inductive Schema : Type := UserSchemas_create | UserSchemas_login.

(** What [router.METHOD(path, ...)] receives after the path. *)
Inductive Callback : Type :=
| validationMiddleware (schema : Schema)
| jwtTokenRequiringMiddleware
| catchAsyncError (handler : Request -> Response -> Prog Response).

Record Route : Type := mkRoute {
  verb : Method;
  route : string;
  callbacks : list Callback
}.

Definition initRoutes : list Route :=
  [ mkRoute POST (path ++ "/register")
      [validationMiddleware UserSchemas_create; catchAsyncError create];
    mkRoute POST (path ++ "/login")
      [validationMiddleware UserSchemas_login; catchAsyncError login];
    mkRoute POST (path ++ "/request-verification-code")
      [jwtTokenRequiringMiddleware; catchAsyncError requestVerification];
    mkRoute GET path
      [jwtTokenRequiringMiddleware; catchAsyncError getAllUsers];
    mkRoute GET (path ++ "/:id")
      [jwtTokenRequiringMiddleware; catchAsyncError getUserById];
    mkRoute PUT (path ++ "/verify-user")
      [jwtTokenRequiringMiddleware; catchAsyncError verifyUser];
    mkRoute PUT (path ++ "/:id")
      [jwtTokenRequiringMiddleware; catchAsyncError updateUser];
    mkRoute DELETE (path ++ "/:id")
      [jwtTokenRequiringMiddleware; catchAsyncError deleteUser] ].

(** ** The User document interface *)

(** [interface User extends Document]: the six members it declares.  The
    interface is a compile-time type; no handler of the controller reads it. *)
Record User : Type := mkUser {
  firstName : string;
  lastName : string;
  email : string;
  password : string;
  isVerified : bool;
  verificationCode : string
}.

Definition asString (v : JsValue) : option string :=
  match v with
  | JStr s => Some s
  | _ => None
  end.

(** ** The account service behind the controller *)

Module AccountService.

(** Modelled from the spec: the UserAccount record of the data model
    (section 3); [src/services/user.service.ts] and the Mongoose model are
    not among the sources.  The verification code is nullable here, as the
    spec's data model says. *)
Record UserAccount : Type := mkAccount {
  uid : string;
  acc_firstName : string;
  acc_lastName : string;
  acc_email : string;
  acc_password : string;
  acc_isVerified : bool;
  acc_verificationCode : option string
}.

(** Modelled from the spec: the UserStore contents, with the entropy the
    next verification code is drawn from. *)
Record Store : Type := mkStore {
  users : list UserAccount;
  entropy : N
}.

(** Modelled from the spec: the outcomes a message is attached to; the spec
    fixes no wording. *)
Inductive Notice : Type :=
| Created | CreationFailed
| LoggedIn | LoginFailed
| CodeIssued | CodeRequestFailed
| Verified | VerificationFailed.

(** Modelled from the spec: its external collaborators, which are password
    hashing, the TokenIssuer, identifier assignment by the UserStore, the
    source of verification codes and the message texts. *)
Record Collaborators : Type := mkCollaborators {
  hashPassword : string -> string;
  issueToken : string -> string;
  assignId : list UserAccount -> string;
  randomCode : N -> string;
  text : Notice -> string
}.

(** Modelled from the spec: the registration data CreateUser takes. *)
Record Registration : Type := mkRegistration {
  reg_firstName : string;
  reg_lastName : string;
  reg_email : string;
  reg_password : string
}.

(** Modelled from the spec: the mutable fields a partial update may carry. *)
Record Patch : Type := mkPatch {
  patch_firstName : option string;
  patch_lastName : option string;
  patch_email : option string;
  patch_password : option string
}.

(** Modelled from the spec: the persistence port (findById, findByEmail,
    update, delete) over the stored accounts. *)
Definition findById (id : string) (us : list UserAccount) : option UserAccount :=
  find (fun u => String.eqb (uid u) id) us.

(** Modelled from the spec: lookup by email, first match. *)
Definition findByEmail (e : string) (us : list UserAccount) : option UserAccount :=
  find (fun u => String.eqb (acc_email u) e) us.

(** Modelled from the spec: update of the first account with the given id. *)
Fixpoint modify (id : string) (f : UserAccount -> UserAccount)
  (us : list UserAccount) : list UserAccount :=
  match us with
  | [] => []
  | u :: rest =>
      if String.eqb (uid u) id then f u :: rest else u :: modify id f rest
  end.

(** Modelled from the spec: removal of the first account with the given id. *)
Fixpoint erase (id : string) (us : list UserAccount) : list UserAccount :=
  match us with
  | [] => []
  | u :: rest => if String.eqb (uid u) id then rest else u :: erase id rest
  end.

(** Modelled from the spec: storing a code replaces any prior one. *)
Definition withCode (c : option string) (u : UserAccount) : UserAccount :=
  mkAccount (uid u) (acc_firstName u) (acc_lastName u) (acc_email u)
    (acc_password u) (acc_isVerified u) c.

(** Modelled from the spec: consuming the code sets isVerified and clears
    the code. *)
Definition markVerified (u : UserAccount) : UserAccount :=
  mkAccount (uid u) (acc_firstName u) (acc_lastName u) (acc_email u)
    (acc_password u) true None.

(** Modelled from the spec: a field a patch does not name keeps its value. *)
Definition orKeep (new : option string) (old : string) : string :=
  match new with
  | Some s => s
  | None => old
  end.

Section Operations.

Variable ext : Collaborators.

(** Modelled from the spec: CreateUser fails with status=false on a
    duplicate email, otherwise stores the account with the password
    hashed, unverified and with no code. *)
Definition CreateUser (r : Registration) (s : Store)
  : bool * option UserAccount * Store :=
  match findByEmail (reg_email r) (users s) with
  | Some _ => (false, None, s)
  | None =>
      let u := mkAccount (assignId ext (users s)) (reg_firstName r)
                 (reg_lastName r) (reg_email r)
                 (hashPassword ext (reg_password r)) false None in
      (true, Some u, mkStore (users s ++ [u]) (entropy s))
  end.

(** Modelled from the spec: Login yields a token when the email exists
    and the password hash matches, and the same failure otherwise. *)
Definition Login (e p : string) (s : Store) : option string :=
  match findByEmail e (users s) with
  | Some u =>
      if String.eqb (acc_password u) (hashPassword ext p)
      then Some (issueToken ext (uid u))
      else None
  | None => None
  end.

(** Modelled from the spec: RequestVerificationCode stores a fresh code
    on the account, replacing any prior one. *)
Definition RequestVerificationCode (id : string) (s : Store) : bool * Store :=
  match findById id (users s) with
  | Some _ =>
      (true, mkStore (modify id (withCode (Some (randomCode ext (entropy s))))
                        (users s))
                     (N.succ (entropy s)))
  | None => (false, s)
  end.

(** Modelled from the spec: VerifyUser succeeds only when a code was
    issued and the submitted code equals it; it then sets isVerified and
    clears the code. *)
Definition VerifyUser (id submitted : string) (s : Store) : bool * Store :=
  match findById id (users s) with
  | Some u =>
      match acc_verificationCode u with
      | Some c =>
          if String.eqb c submitted
          then (true, mkStore (modify id markVerified (users s)) (entropy s))
          else (false, s)
      | None => (false, s)
      end
  | None => (false, s)
  end.

(** Modelled from the spec: GetAllUsers returns all accounts. *)
Definition GetAllUsers (s : Store) : list UserAccount := users s.

(** Modelled from the spec: GetUserById returns one account or a
    not-found indication. *)
Definition GetUser (id : string) (s : Store) : option UserAccount :=
  findById id (users s).

(** Modelled from the spec: a patch overwrites the mutable fields it names;
    a new password is hashed like the first one. *)
Definition applyPatch (p : Patch) (u : UserAccount) : UserAccount :=
  mkAccount (uid u)
    (orKeep (patch_firstName p) (acc_firstName u))
    (orKeep (patch_lastName p) (acc_lastName u))
    (orKeep (patch_email p) (acc_email u))
    (orKeep (option_map (hashPassword ext) (patch_password p)) (acc_password u))
    (acc_isVerified u)
    (acc_verificationCode u).

(** Modelled from the spec: UpdateUser is a partial update of the
    mutable fields; isVerified and verificationCode are not among them.
    It returns the updated record or a not-found indication. *)
Definition UpdateUser (id : string) (p : Patch) (s : Store)
  : option UserAccount * Store :=
  match findById id (users s) with
  | Some u =>
      (Some (applyPatch p u),
       mkStore (modify id (applyPatch p) (users s)) (entropy s))
  | None => (None, s)
  end.

(** Modelled from the spec: DeleteUser removes the account and returns
    the deleted record, or an indication that nothing existed. *)
Definition DeleteUser (id : string) (s : Store) : option UserAccount * Store :=
  match findById id (users s) with
  | Some u => (Some u, mkStore (erase id (users s)) (entropy s))
  | None => (None, s)
  end.

(** *** The service as the controller sees it *)

(** Modelled from the spec: the outward-facing form of an account, with the
    password left out. *)
Definition view (u : UserAccount) : JsValue :=
  JObj [("_id", JStr (uid u));
        ("firstName", JStr (acc_firstName u));
        ("lastName", JStr (acc_lastName u));
        ("email", JStr (acc_email u));
        ("isVerified", JBool (acc_isVerified u));
        ("verificationCode",
         match acc_verificationCode u with
         | Some c => JStr c
         | None => JNull
         end)].

(** Modelled from the spec: the not-found indication, taken to be [null]
    (the one caller that tests it, updateUser, tests for a falsy value). *)
Definition viewOpt (u : option UserAccount) : JsValue :=
  match u with
  | Some u => view u
  | None => JNull
  end.

(** Modelled from the spec: a result object with a boolean flag and a
    message. *)
Definition result (flag : string) (ok : bool) (n : Notice)
  (extra : list (string * JsValue)) : JsValue :=
  JObj ((flag, JBool ok) :: ("message", JStr (text ext n)) :: extra).

(** Modelled from the spec: a body is a registration when its four fields
    are strings; anything else is rejected by the store. *)
Definition decodeRegistration (b : JsValue) : option Registration :=
  match b with
  | JObj fs =>
      match asString (lookup_field "firstName" fs),
            asString (lookup_field "lastName" fs),
            asString (lookup_field "email" fs),
            asString (lookup_field "password" fs) with
      | Some f, Some l, Some e, Some p => Some (mkRegistration f l e p)
      | _, _, _, _ => None
      end
  | _ => None
  end.

(** Modelled from the spec: the mutable fields a body names with string
    values; every other property of the body is ignored. *)
Definition decodePatch (b : JsValue) : Patch :=
  match b with
  | JObj fs =>
      mkPatch (asString (lookup_field "firstName" fs))
              (asString (lookup_field "lastName" fs))
              (asString (lookup_field "email" fs))
              (asString (lookup_field "password" fs))
  | _ => mkPatch None None None None
  end.

(** Modelled from the spec: the eight operations of section 4.1 behind
    the method names the controller calls.  Expected failures come back
    as results with a flag and a message; the store of the model cannot
    fail, so no call rejects. *)
Definition serve : Service Store :=
  fun c s =>
    match c with
    | UserService.CreateUser b =>
        match decodeRegistration b with
        | Some r =>
            match CreateUser r s with
            | (true, Some u, s') =>
                (inr (result "status" true Created [("data", view u)]), s')
            | (_, _, s') =>
                (inr (result "status" false CreationFailed []), s')
            end
        | None => (inr (result "status" false CreationFailed []), s)
        end
    | UserService.GetAllUsers => (inr (JArr (map view (GetAllUsers s))), s)
    | UserService.GetUser id =>
        match asString id with
        | Some i => (inr (viewOpt (GetUser i s)), s)
        | None => (inr JNull, s)
        end
    | UserService.UpdateUser id b =>
        match asString id with
        | Some i =>
            let '(u, s') := UpdateUser i (decodePatch b) s in
            (inr (viewOpt u), s')
        | None => (inr JNull, s)
        end
    | UserService.DeleteUser id =>
        match asString id with
        | Some i =>
            let '(u, s') := DeleteUser i s in
            (inr (viewOpt u), s')
        | None => (inr JNull, s)
        end
    | UserService.login e p =>
        match asString e, asString p with
        | Some e', Some p' =>
            match Login e' p' s with
            | Some t =>
                (inr (result "status" true LoggedIn [("token", JStr t)]), s)
            | None => (inr (result "status" false LoginFailed []), s)
            end
        | _, _ => (inr (result "status" false LoginFailed []), s)
        end
    | UserService.requestVerificationCode id =>
        match asString id with
        | Some i =>
            let '(ok, s') := RequestVerificationCode i s in
            (inr (result "status" ok
                    (if ok then CodeIssued else CodeRequestFailed) []), s')
        | None => (inr (result "status" false CodeRequestFailed []), s)
        end
    | UserService.verifyUser id code =>
        match asString id, asString code with
        | Some i, Some c =>
            let '(ok, s') := VerifyUser i c s in
            (inr (result "verified" ok
                    (if ok then Verified else VerificationFailed) []), s')
        | _, _ => (inr (result "verified" false VerificationFailed []), s)
        end
    end.

End Operations.

End AccountService.

(** ** Sample data used to exercise the statements *)

Definition sampleExt : AccountService.Collaborators :=
  AccountService.mkCollaborators
    (fun p => "sha:" ++ p)
    (fun i => "jwt:" ++ i)
    (fun us => String.concat "" (repeat "u" (S (length us))))
    (fun n => if (n =? 0)%N then "481516" else "234200")
    (fun n =>
       match n with
       | AccountService.Created => "User created"
       | AccountService.CreationFailed => "User creation failed"
       | AccountService.LoggedIn => "Logged in"
       | AccountService.LoginFailed => "Invalid credentials"
       | AccountService.CodeIssued => "Verification code issued"
       | AccountService.CodeRequestFailed => "Verification code request failed"
       | AccountService.Verified => "User verified"
       | AccountService.VerificationFailed => "Verification failed"
       end).

Definition ada : AccountService.UserAccount :=
  AccountService.mkAccount "u" "Ada" "Lovelace" "a@x.com" "sha:pw123" false
    (Some "481516").

Definition sampleStore : AccountService.Store :=
  AccountService.mkStore [ada] 1%N.

Definition emptyStore : AccountService.Store := AccountService.mkStore [] 0%N.

(** A response object as the token middleware leaves it for user [id]. *)
Definition freshResponse (id : string) : Response :=
  mkResponse (JObj [("id", JStr id)]) 200 None.

(** [o.k = v] on any value; a no-op on values that cannot hold properties. *)
Definition set_prop (o : JsValue) (k : string) (v : JsValue) : JsValue :=
  match o with
  | JObj fs => JObj (set_field k v fs)
  | _ => o
  end.

(** The account a service call is aimed at, for the calls that take an id. *)
Definition subject (c : UserService.Call) : option JsValue :=
  match c with
  | UserService.GetUser id
  | UserService.UpdateUser id _
  | UserService.DeleteUser id
  | UserService.requestVerificationCode id
  | UserService.verifyUser id _ => Some id
  | _ => None
  end.

(** A route is public when it is POST /users/register or POST /users/login. *)
Definition public (r : Route) : Prop :=
  verb r = POST /\ (route r = "/users/register" \/ route r = "/users/login").

(** A route is guarded when the token middleware sits in its callback list
    ahead of the handler, which comes last. *)
Definition guarded (r : Route) : Prop :=
  exists pre post h,
    callbacks r =
      (pre ++ jwtTokenRequiringMiddleware :: post ++ [catchAsyncError h])%list.

(** A service that resolves every call with the same value. *)
Definition constService (r : JsValue) : Service unit := fun _ s => (inr r, s).

(** The stored account a route parameter or token id designates, if any. *)
Definition lookupAccount (id : JsValue) (s : AccountService.Store)
  : option AccountService.UserAccount :=
  match asString id with
  | Some i => AccountService.findById i (AccountService.users s)
  | None => None
  end.

(** The part of an account a generic patch must leave alone. *)
Definition protected (u : AccountService.UserAccount)
  : string * bool * option string :=
  (AccountService.uid u, AccountService.acc_isVerified u,
   AccountService.acc_verificationCode u).


(** ** What a client observes, and how a route runs *)

Definition nullish (v : JsValue) : bool :=
  match v with
  | JUndefined | JNull => true
  | _ => false
  end.

(** The status code a run answered with, if it answered at all. *)
Definition statusOf {S : Type} (o : Outcome Response * S) : option Z :=
  match fst o with
  | Resolved resp => Some (statusCode resp)
  | Rejected _ => None
  end.

(** The JSON body a run sent, if it sent one. *)
Definition bodyOf {S : Type} (o : Outcome Response * S) : option JsValue :=
  match fst o with
  | Resolved resp => sent resp
  | Rejected _ => None
  end.

(** The error a run ended with, if it rejected. *)
Definition errorOf {S : Type} (o : Outcome Response * S) : option JsError :=
  match fst o with
  | Resolved _ => None
  | Rejected e => Some e
  end.

(** What a middleware does with a request: call [next()], possibly after
    writing to the request or to [res.locals]; end the response itself; or
    call [next(err)]. *)
Inductive Step : Type :=
| Next (req : Request) (res : Response)
| Done (res : Response)
| Fail (e : JsError).

(** The two middleware the controller imports; their code is outside the
    controller, so their behaviour is left open. *)
Record Middlewares : Type := mkMiddlewares {
  validation : Schema -> Request -> Response -> Step;
  jwt : Request -> Response -> Step
}.

Definition continue (st : Step) (k : Request -> Response -> Prog Response)
  : Prog Response :=
  match st with
  | Next req res => k req res
  | Done res => Ret res
  | Fail e => Throw e
  end.

(** The callbacks of a route run in the order they were registered: a
    middleware that does not call [next()] ends the chain, and the handler
    never calls it.  A chain that runs out leaves the response as it is. *)
Fixpoint runCallbacks (mw : Middlewares) (cbs : list Callback)
  (req : Request) (res : Response) : Prog Response :=
  match cbs with
  | [] => Ret res
  | validationMiddleware sch :: rest =>
      continue (validation mw sch req res) (runCallbacks mw rest)
  | jwtTokenRequiringMiddleware :: rest =>
      continue (jwt mw req res) (runCallbacks mw rest)
  | catchAsyncError handler :: _ => handler req res
  end.

Definition method_eqb (a b : Method) : bool :=
  match a, b with
  | GET, GET | POST, POST | PUT, PUT | DELETE, DELETE => true
  | _, _ => false
  end.

(** The router tries the routes in registration order and runs the first
    whose verb and path pattern match; [matches pattern url] stands for the
    router's own pattern matching. *)
Definition dispatch (matches : string -> string -> bool) (m : Method)
  (url : string) : option Route :=
  find (fun r => method_eqb (verb r) m && matches (route r) url) initRoutes.

(** A pattern matcher for the examples: literal patterns match themselves
    and [/users/:id] matches any path under [/users/]. *)
Definition sampleMatches (pattern url : string) : bool :=
  String.eqb pattern url
  || (String.eqb pattern "/users/:id" && String.prefix "/users/" url).

(** Middleware for the examples: validation lets everything through, the
    token middleware lets through requests whose body is an object and
    writes user [u] to [res.locals.token], and answers 401 otherwise. *)
Definition sampleMiddlewares : Middlewares :=
  mkMiddlewares
    (fun _ req res => Next req res)
    (fun req res =>
       match body req with
       | JObj _ =>
           Next req (mkResponse (JObj [("id", JStr "u")]) (statusCode res)
                       (sent res))
       | _ => Done (json (JObj [("message", JStr "Unauthorized")])
                         (status 401 res))
       end).

(** Two runs that a client and the service cannot tell apart. *)
Definition sameAnswer {S : Type} (o o' : Outcome Response * S) : Prop :=
  statusOf o = statusOf o' /\ bodyOf o = bodyOf o'
  /\ errorOf o = errorOf o' /\ snd o = snd o'.

(** The response object with another decoded token in [res.locals]. *)
Definition withToken (tok : JsValue) (res : Response) : Response :=
  mkResponse tok (statusCode res) (sent res).

(** Whether a middleware step hands over to the next callback. *)
Definition passes (st : Step) : bool :=
  match st with
  | Next _ _ => true
  | _ => false
  end.

(** * Properties *)

(** ** Reading and writing properties *)

Lemma lookup_set_other (k k' : string) (v : JsValue) (fs : list (string * JsValue)) :
  k <> k' -> lookup_field k (set_field k' v fs) = lookup_field k fs.
Proof.
  intros Hne. induction fs as [|[k0 v0] fs IH]; simpl.
  - destruct (String.eqb_spec k k'); [contradiction | reflexivity].
  - destruct (String.eqb_spec k' k0) as [->|Hk0]; simpl.
    + destruct (String.eqb_spec k k0); [contradiction | reflexivity].
    + rewrite IH. reflexivity.
Qed.

Lemma get_set_other (o : JsValue) (k k' : string) (v : JsValue) :
  k <> k' -> get_prop (set_prop o k' v) k = get_prop o k.
Proof.
  intros Hne. destruct o; simpl; try reflexivity.
  now rewrite lookup_set_other.
Qed.

Lemma get_prop_bool (r : JsValue) (k : string) (b : bool) :
  get_prop r k = inr (JBool b) ->
  exists fs, r = JObj fs /\ lookup_field k fs = JBool b.
Proof.
  destruct r; simpl; intros H; try discriminate.
  exists fields. split; [reflexivity | congruence].
Qed.

(** ** What each handler answers, for a service that resolved *)

Section Handlers.

Context {S : Type}.
Variable svc : Service S.
Variables (req : Request) (res : Response).

Lemma run_create (s s' : S) (fs : list (string * JsValue)) :
  svc (UserService.CreateUser (body req)) s = (inr (JObj fs), s') ->
  run svc (create req res) s =
    (Resolved (json (JObj [("message", lookup_field "message" fs);
                           ("data", lookup_field "data" fs)])
                    (status (if truthy (lookup_field "status" fs)
                             then 201 else 400) res)), s').
Proof. intros H. unfold create, await. simpl. rewrite H. reflexivity. Qed.

Lemma run_getUserById (s s' : S) (user : JsValue) :
  svc (UserService.GetUser (param "id" (params req))) s = (inr user, s') ->
  run svc (getUserById req res) s =
    (Resolved (json (JObj [("data", user)]) (status 200 res)), s').
Proof. intros H. unfold getUserById, await. simpl. rewrite H. reflexivity. Qed.

Lemma run_updateUser (s s' : S) (user : JsValue) :
  svc (UserService.UpdateUser (param "id" (params req)) (body req)) s
    = (inr user, s') ->
  run svc (updateUser req res) s =
    (Resolved (if truthy user
               then json (JObj [("data", user)]) (status 200 res)
               else json (JObj [("message", JStr "User not found")])
                         (status 404 res)), s').
Proof.
  intros H. unfold updateUser, await. simpl. rewrite H.
  destruct (truthy user); reflexivity.
Qed.

Lemma run_deleteUser (s s' : S) (deleted : JsValue) :
  svc (UserService.DeleteUser (param "id" (params req))) s = (inr deleted, s') ->
  run svc (deleteUser req res) s =
    (Resolved (json (JObj [("data", deleted)]) (status 200 res)), s').
Proof. intros H. unfold deleteUser, await. simpl. rewrite H. reflexivity. Qed.

Lemma run_login (s s' : S) (e p : JsValue) (fs : list (string * JsValue)) :
  get_prop (body req) "email" = inr e ->
  get_prop (body req) "password" = inr p ->
  svc (UserService.login e p) s = (inr (JObj fs), s') ->
  run svc (login req res) s =
    (Resolved (if truthy (lookup_field "status" fs)
               then json (JObj [("data",
                                 JObj [("message", lookup_field "message" fs);
                                       ("auth_token", lookup_field "token" fs)])])
                         (status 200 res)
               else json (JObj [("message", lookup_field "message" fs)])
                         (status 404 res)), s').
Proof.
  intros He Hp H. unfold login, prop, await. rewrite He, Hp. simpl.
  rewrite H. simpl. destruct (truthy (lookup_field "status" fs)); reflexivity.
Qed.

Lemma run_requestVerification (s s' : S) (id : JsValue)
  (fs : list (string * JsValue)) :
  get_prop (locals_token res) "id" = inr id ->
  svc (UserService.requestVerificationCode id) s = (inr (JObj fs), s') ->
  run svc (requestVerification req res) s =
    (Resolved (json (JObj [("message", lookup_field "message" fs)])
                    (status (if truthy (lookup_field "status" fs)
                             then 200 else 500) res)), s').
Proof.
  intros Hid H. unfold requestVerification, prop, await. rewrite Hid. simpl.
  rewrite H. reflexivity.
Qed.

Lemma run_verifyUser (s s' : S) (id code : JsValue)
  (fs : list (string * JsValue)) :
  get_prop (locals_token res) "id" = inr id ->
  get_prop (body req) "code" = inr code ->
  svc (UserService.verifyUser id code) s = (inr (JObj fs), s') ->
  run svc (verifyUser req res) s =
    (Resolved (json (JObj [("message", lookup_field "message" fs)])
                    (status (if truthy (lookup_field "verified" fs)
                             then 200 else 500) res)), s').
Proof.
  intros Hid Hcode H. unfold verifyUser, prop, await. rewrite Hid, Hcode. simpl.
  rewrite H. reflexivity.
Qed.

(** The two verification handlers make one service call, aimed at the id of
    the decoded token, or none when a property read throws first. *)
Lemma calls_requestVerification (s : S) :
  calls svc (requestVerification req res) s =
    match get_prop (locals_token res) "id" with
    | inr id => [UserService.requestVerificationCode id]
    | inl _ => []
    end.
Proof.
  unfold requestVerification, prop, await.
  destruct (get_prop (locals_token res) "id") as [e|id]; simpl; [reflexivity|].
  destruct (svc (UserService.requestVerificationCode id) s) as [[e|r] s'];
    [reflexivity|].
  destruct r; reflexivity.
Qed.

Lemma calls_verifyUser (s : S) :
  calls svc (verifyUser req res) s =
    match get_prop (locals_token res) "id", get_prop (body req) "code" with
    | inr id, inr code => [UserService.verifyUser id code]
    | _, _ => []
    end.
Proof.
  unfold verifyUser, prop, await.
  destruct (get_prop (locals_token res) "id") as [e|id]; simpl; [reflexivity|].
  destruct (get_prop (body req) "code") as [e|code]; simpl; [reflexivity|].
  destruct (svc (UserService.verifyUser id code) s) as [[e|r] s'];
    [reflexivity|].
  destruct r; reflexivity.
Qed.

End Handlers.

(** The verification handlers read nothing of the request but [body.code]. *)
Lemma requestVerification_ignores_request (req req' : Request) (res : Response) :
  requestVerification req' res = requestVerification req res.
Proof. reflexivity. Qed.

Lemma verifyUser_reads_code_only (req req' : Request) (res : Response) :
  get_prop (body req') "code" = get_prop (body req) "code" ->
  verifyUser req' res = verifyUser req res.
Proof. intros H. unfold verifyUser, prop. rewrite H. reflexivity. Qed.

(** ** Identity of the account acted on *)

(** C1. requestVerification and verifyUser hand the service the id of the
    decoded token and nothing else: the one service call each makes carries
    [res.locals.token.id]; requestVerification is the same program for every
    request, and verifyUser is unchanged when any body property other than
    [code] (an [id], a [userId], ...) is set to any value. *)
Theorem identity_from_token_only
  (S : Type) (svc : Service S) (s : S) (req req' : Request) (res : Response)
  (k : string) (v : JsValue) :
  k <> "code" ->
  calls svc (requestVerification req res) s =
    match get_prop (locals_token res) "id" with
    | inr id => [UserService.requestVerificationCode id]
    | inl _ => []
    end
  /\ calls svc (verifyUser req res) s =
    match get_prop (locals_token res) "id", get_prop (body req) "code" with
    | inr id, inr code => [UserService.verifyUser id code]
    | _, _ => []
    end
  /\ (forall c id,
        In c (calls svc (requestVerification req res) s
              ++ calls svc (verifyUser req res) s)%list ->
        get_prop (locals_token res) "id" = inr id -> subject c = Some id)
  /\ requestVerification req' res = requestVerification req res
  /\ verifyUser (mkRequest (params req') (set_prop (body req) k v)) res
     = verifyUser req res.
Proof.
  intros Hk.
  split; [apply calls_requestVerification|].
  split; [apply calls_verifyUser|].
  split.
  - intros c id Hin Hid.
    rewrite calls_requestVerification, calls_verifyUser, Hid in Hin.
    destruct (get_prop (body req) "code") as [e|code]; simpl in Hin;
      intuition (subst; reflexivity).
  - split; [reflexivity|].
    apply verifyUser_reads_code_only. simpl.
    apply get_set_other. intros E. apply Hk. symmetry. exact E.
Qed.

Lemma identity_from_token_only_witness :
  "id" <> "code"
  /\ calls (constService (JObj [("verified", JBool true)]))
       (verifyUser (mkRequest [] (JObj [("code", JStr "481516")]))
                   (freshResponse "u")) tt
     = [UserService.verifyUser (JStr "u") (JStr "481516")]
  /\ verifyUser
       (mkRequest []
          (set_prop (JObj [("code", JStr "481516")]) "id" (JStr "someone-else")))
       (freshResponse "u")
     = verifyUser (mkRequest [] (JObj [("code", JStr "481516")]))
                  (freshResponse "u").
Proof.
  assert (Hne : "id" <> "code") by discriminate.
  pose proof (identity_from_token_only unit
                (constService (JObj [("verified", JBool true)])) tt
                (mkRequest [] (JObj [("code", JStr "481516")]))
                (mkRequest [] JUndefined)
                (freshResponse "u") "id" (JStr "someone-else") Hne)
    as (_ & Hcalls & _ & _ & Hsame).
  split; [exact Hne|]. split; [exact Hcalls | exact Hsame].
Defined.

(** ** Routes *)

(** C2. Every registered route other than POST /users/register and
    POST /users/login has the token middleware in its callback list ahead of
    its handler; those two routes are registered and do not have it. *)
Theorem routes_require_token (r : Route) :
  In r initRoutes ->
  (public r -> ~ In jwtTokenRequiringMiddleware (callbacks r))
  /\ (~ public r -> guarded r)
  /\ (exists r1 r2, In r1 initRoutes /\ In r2 initRoutes
        /\ verb r1 = POST /\ route r1 = "/users/register"
        /\ verb r2 = POST /\ route r2 = "/users/login").
Proof.
  intros Hin.
  assert (Hreg : exists r1 r2, In r1 initRoutes /\ In r2 initRoutes
        /\ verb r1 = POST /\ route r1 = "/users/register"
        /\ verb r2 = POST /\ route r2 = "/users/login").
  { eexists; eexists. split; [left; reflexivity|].
    split; [right; left; reflexivity|]. repeat split. }
  assert (Hpub : forall h sch,
    ~ In jwtTokenRequiringMiddleware [validationMiddleware sch; catchAsyncError h]).
  { intros h sch [E|[E|[]]]; discriminate. }
  assert (Hgd : forall m p h,
    guarded (mkRoute m p [jwtTokenRequiringMiddleware; catchAsyncError h])).
  { intros m p h. exists [], [], h. reflexivity. }
  simpl in Hin.
  repeat (destruct Hin as [<-|Hin]); try contradiction;
    (split; [|split; [|exact Hreg]]);
    try (intros _; apply Hpub);
    try (intros _; apply Hgd);
    try (intros [Hv [Hr|Hr]]; simpl in *; discriminate);
    try (intros Hn; exfalso; apply Hn; split; [reflexivity|]; simpl; tauto).
Qed.

Lemma routes_require_token_witness :
  In (mkRoute PUT "/users/verify-user"
        [jwtTokenRequiringMiddleware; catchAsyncError verifyUser]) initRoutes
  /\ guarded (mkRoute PUT "/users/verify-user"
        [jwtTokenRequiringMiddleware; catchAsyncError verifyUser]).
Proof.
  assert (Hin : In (mkRoute PUT "/users/verify-user"
        [jwtTokenRequiringMiddleware; catchAsyncError verifyUser]) initRoutes).
  { simpl. tauto. }
  split; [exact Hin|].
  apply (routes_require_token _ Hin).
  intros [Hv _]. discriminate.
Defined.

(** ** Status codes of the verification handlers *)

(** C3. Whatever result the service resolves with, requestVerification
    answers 200 when the result's [status] flag is true and 500 when it is
    false, and verifyUser answers 200 when the [verified] flag is true and
    500 when it is false.  Each handler is taken with the reads it makes
    itself: the token id for both, [body.code] for verifyUser only. *)
Theorem verification_status_codes
  (S : Type) (svc : Service S) (s : S) (req : Request) (res : Response) :
  (forall (id r : JsValue) (s1 : S) (b : bool),
     get_prop (locals_token res) "id" = inr id ->
     svc (UserService.requestVerificationCode id) s = (inr r, s1) ->
     get_prop r "status" = inr (JBool b) ->
     exists resp,
       run svc (requestVerification req res) s = (Resolved resp, s1)
       /\ statusCode resp = if b then 200 else 500)
  /\ (forall (id code r : JsValue) (s2 : S) (b : bool),
        get_prop (locals_token res) "id" = inr id ->
        get_prop (body req) "code" = inr code ->
        svc (UserService.verifyUser id code) s = (inr r, s2) ->
        get_prop r "verified" = inr (JBool b) ->
        exists resp,
          run svc (verifyUser req res) s = (Resolved resp, s2)
          /\ statusCode resp = if b then 200 else 500).
Proof.
  split.
  - intros id r s1 b Hid H1 Hb.
    apply get_prop_bool in Hb as (fs & -> & Hf).
    eexists. split.
    + apply (run_requestVerification svc req res s s1 id fs Hid H1).
    + simpl. rewrite Hf. reflexivity.
  - intros id code r s2 b Hid Hcode H2 Hb.
    apply get_prop_bool in Hb as (fs & -> & Hf).
    eexists. split.
    + apply (run_verifyUser svc req res s s2 id code fs Hid Hcode H2).
    + simpl. rewrite Hf. reflexivity.
Qed.

Lemma verification_status_codes_witness :
  (exists resp,
     run (constService (JObj [("status", JBool false);
                              ("message", JStr "not issued")]))
         (requestVerification (mkRequest [] JUndefined) (freshResponse "u")) tt
     = (Resolved resp, tt)
     /\ statusCode resp = 500)
  /\ (exists resp,
        run (constService (JObj [("verified", JBool true);
                                 ("message", JStr "done")]))
            (verifyUser (mkRequest [] (JObj [("code", JStr "481516")]))
                        (freshResponse "u")) tt = (Resolved resp, tt)
        /\ statusCode resp = 200).
Proof.
  split.
  - apply (proj1 (verification_status_codes unit
                    (constService (JObj [("status", JBool false);
                                         ("message", JStr "not issued")]))
                    tt (mkRequest [] JUndefined) (freshResponse "u"))
             (JStr "u")
             (JObj [("status", JBool false); ("message", JStr "not issued")])
             tt false); reflexivity.
  - apply (proj2 (verification_status_codes unit
                    (constService (JObj [("verified", JBool true);
                                         ("message", JStr "done")]))
                    tt (mkRequest [] (JObj [("code", JStr "481516")]))
                    (freshResponse "u"))
             (JStr "u") (JStr "481516")
             (JObj [("verified", JBool true); ("message", JStr "done")])
             tt true); reflexivity.
Defined.

(** ** Login *)

(** C6. For a login the service answers with a boolean [status] and a
    message: on failure the handler responds 404 with a body that is exactly
    [{message}], whatever else the result carries; on success it responds 200
    with [{data: {message, auth_token}}], the token being the one the
    service returned. *)
Theorem login_response
  (S : Type) (svc : Service S) (s s' : S) (req : Request) (res : Response)
  (e p r tok : JsValue) (b : bool) (m : string) :
  get_prop (body req) "email" = inr e ->
  get_prop (body req) "password" = inr p ->
  svc (UserService.login e p) s = (inr r, s') ->
  get_prop r "status" = inr (JBool b) ->
  get_prop r "message" = inr (JStr m) ->
  get_prop r "token" = inr tok ->
  exists resp,
    run svc (login req res) s = (Resolved resp, s')
    /\ if b
       then statusCode resp = 200
            /\ sent resp =
                 Some (toJSON (JObj [("data", JObj [("message", JStr m);
                                                    ("auth_token", tok)])]))
            /\ forall t, tok = JStr t ->
                 sent resp =
                   Some (JObj [("data", JObj [("message", JStr m);
                                              ("auth_token", JStr t)])])
       else statusCode resp = 404
            /\ sent resp = Some (JObj [("message", JStr m)]).
Proof.
  intros He Hp Hsvc Hb Hm Ht.
  apply get_prop_bool in Hb as (fs & -> & Hf).
  simpl in Hm, Ht. injection Hm as Hm. injection Ht as Ht.
  eexists. split; [apply (run_login svc req res s s' e p fs He Hp Hsvc)|].
  simpl. rewrite Hf, Hm, Ht. destruct b; simpl.
  - split; [reflexivity|]. split; [reflexivity|].
    intros t ->. reflexivity.
  - split; reflexivity.
Qed.

Lemma login_response_witness :
  exists resp,
    run (constService (JObj [("status", JBool false);
                             ("message", JStr "Invalid credentials");
                             ("token", JStr "leftover")]))
        (login (mkRequest [] (JObj [("email", JStr "a@x.com");
                                    ("password", JStr "wrong")]))
               (mkResponse JUndefined 200 None)) tt = (Resolved resp, tt)
    /\ statusCode resp = 404
    /\ sent resp = Some (JObj [("message", JStr "Invalid credentials")]).
Proof.
  apply (login_response unit
           (constService (JObj [("status", JBool false);
                                ("message", JStr "Invalid credentials");
                                ("token", JStr "leftover")]))
           tt tt
           (mkRequest [] (JObj [("email", JStr "a@x.com");
                                ("password", JStr "wrong")]))
           (mkResponse JUndefined 200 None)
           (JStr "a@x.com") (JStr "wrong")
           (JObj [("status", JBool false);
                  ("message", JStr "Invalid credentials");
                  ("token", JStr "leftover")])
           (JStr "leftover") false "Invalid credentials"); reflexivity.
Defined.

(** A successful login against the account service of the spec. *)
Example login_success_on_sample :
  fst (run (AccountService.serve sampleExt)
         (login (mkRequest [] (JObj [("email", JStr "a@x.com");
                                     ("password", JStr "pw123")]))
                (mkResponse JUndefined 200 None)) sampleStore)
  = Resolved (mkResponse JUndefined 200
                (Some (JObj [("data", JObj [("message", JStr "Logged in");
                                            ("auth_token", JStr "jwt:u")])]))).
Proof. reflexivity. Qed.

(** ** What the verification-code request discloses *)





(** ** The controller over the account service *)

Section OverAccountService.

Import AccountService.

Variable ext : Collaborators.

Lemma toJSON_view (u : UserAccount) : toJSON (view u) = view u.
Proof. destruct u as [i f l e p b [c|]]; reflexivity. Qed.

Lemma toJSON_viewOpt (u : option UserAccount) : toJSON (viewOpt u) = viewOpt u.
Proof. destruct u; [apply toJSON_view | reflexivity]. Qed.

Lemma truthy_viewOpt (u : option UserAccount) :
  truthy (viewOpt u) = match u with Some _ => true | None => false end.
Proof. destruct u; reflexivity. Qed.

Lemma findById_uid (id : string) (us : list UserAccount) (u : UserAccount) :
  findById id us = Some u -> uid u = id.
Proof.
  unfold findById. intros H. apply find_some in H as [_ H].
  now apply String.eqb_eq.
Qed.

Lemma modify_protected (id : string) (f : UserAccount -> UserAccount)
  (us : list UserAccount) :
  (forall u, protected (f u) = protected u) ->
  map protected (modify id f us) = map protected us.
Proof.
  intros Hf. induction us as [|u us IH]; simpl; [reflexivity|].
  destruct (String.eqb (uid u) id); simpl.
  - now rewrite Hf.
  - now rewrite IH.
Qed.

Lemma findById_protected (id : string) (us us' : list UserAccount) :
  map protected us' = map protected us ->
  option_map protected (findById id us') = option_map protected (findById id us).
Proof.
  unfold findById.
  revert us'. induction us as [|u us IH]; intros [|u' us'] H; simpl in *;
    try discriminate; [reflexivity|].
  injection H as Hid Hver Hcode Hrest.
  rewrite Hid. destruct (String.eqb (uid u) id); simpl.
  - unfold protected. congruence.
  - now apply IH.
Qed.

Lemma applyPatch_protected (p : Patch) (u : UserAccount) :
  protected (applyPatch ext p u) = protected u.
Proof. reflexivity. Qed.

(** What the service answers to an update, and what it leaves untouched. *)
Lemma serve_UpdateUser (id b : JsValue) (s : Store) :
  exists u s',
    serve ext (UserService.UpdateUser id b) s = (inr (viewOpt u), s')
    /\ map protected (users s') = map protected (users s).
Proof.
  simpl. destruct (asString id) as [i|].
  - unfold UpdateUser. destruct (findById i (users s)) as [u|].
    + eexists (Some _), _. split; [reflexivity|]. simpl.
      apply modify_protected, applyPatch_protected.
    + exists None, s. split; reflexivity.
  - exists None, s. split; reflexivity.
Qed.

(** What the service answers to a registration. *)
Lemma serve_CreateUser (b : JsValue) (s : Store) :
  exists ok extra s',
    serve ext (UserService.CreateUser b) s
      = (inr (result ext "status" ok
                (if ok then Created else CreationFailed) extra), s')
    /\ (forall reg, decodeRegistration b = Some reg ->
          findByEmail (reg_email reg) (users s) <> None ->
          ok = false /\ s' = s).
Proof.
  simpl. destruct (decodeRegistration b) as [reg|].
  - unfold CreateUser. destruct (findByEmail (reg_email reg) (users s)) eqn:E.
    + exists false, [], s. split; [reflexivity|]. intros; split; reflexivity.
    + eexists true, _, _. split; [reflexivity|].
      intros reg' Hreg Hdup. injection Hreg as <-. congruence.
  - exists false, [], s. split; [reflexivity|]. intros reg Hreg. discriminate.
Qed.

(** What the service answers to a deletion. *)
Lemma serve_DeleteUser (id : JsValue) (s : Store) :
  serve ext (UserService.DeleteUser id) s =
    match lookupAccount id s with
    | Some u => (inr (view u), mkStore (erase (uid u) (users s)) (entropy s))
    | None => (inr JNull, s)
    end.
Proof.
  unfold lookupAccount. simpl. destruct (asString id) as [i|]; [|reflexivity].
  unfold DeleteUser. destruct (findById i (users s)) as [u|] eqn:E; [|reflexivity].
  apply findById_uid in E. subst i. reflexivity.
Qed.

(** What the service answers to a lookup. *)
Lemma serve_GetUser (id : JsValue) (s : Store) :
  serve ext (UserService.GetUser id) s = (inr (viewOpt (lookupAccount id s)), s).
Proof.
  unfold lookupAccount. simpl. destruct (asString id); reflexivity.
Qed.

Lemma findById_modify (id : string) (f : UserAccount -> UserAccount)
  (us : list UserAccount) :
  (forall u, uid (f u) = uid u) ->
  findById id (modify id f us) = option_map f (findById id us).
Proof.
  intros Hf. unfold findById.
  induction us as [|u us IH]; simpl; [reflexivity|].
  destruct (String.eqb (uid u) id) eqn:E; simpl.
  - now rewrite Hf, E.
  - now rewrite E.
Qed.

(** On the account model of the spec a successful VerifyUser leaves the
    account verified and without a code. *)
Lemma VerifyUser_clears_code (id submitted : string) (s s' : Store) :
  VerifyUser id submitted s = (true, s') ->
  exists u,
    findById id (users s') = Some u
    /\ acc_isVerified u = true
    /\ acc_verificationCode u = None.
Proof.
  unfold VerifyUser. destruct (findById id (users s)) as [u|] eqn:E;
    [|discriminate].
  destruct (acc_verificationCode u) as [c|]; [|discriminate].
  destruct (String.eqb c submitted); [|discriminate].
  intros H. injection H as <-. simpl.
  rewrite findById_modify by reflexivity. rewrite E. simpl.
  eexists. split; [reflexivity|]. split; reflexivity.
Qed.

End OverAccountService.

(** ** UpdateUser and the verification state *)

(** updateUser hands the request body to the service as it arrived. *)
Lemma updateUser_forwards_body
  (S : Type) (svc : Service S) (s : S) (req : Request) (res : Response) :
  calls svc (updateUser req res) s
  = [UserService.UpdateUser (param "id" (params req)) (body req)].
Proof.
  unfold updateUser, await. simpl.
  destruct (svc (UserService.UpdateUser (param "id" (params req)) (body req)) s)
    as [[e|user] s']; [reflexivity|].
  destruct (truthy user); reflexivity.
Qed.

(** C5. Against the account service of the spec, updateUser completes for
    every request, and whatever the patch body holds, every stored account
    keeps its id, its isVerified flag and its verification code. *)
Theorem updateUser_keeps_verification_state
  (ext : AccountService.Collaborators) (req : Request) (res : Response)
  (s : AccountService.Store) :
  exists resp s',
    run (AccountService.serve ext) (updateUser req res) s = (Resolved resp, s')
    /\ map protected (AccountService.users s')
       = map protected (AccountService.users s)
    /\ forall id,
         option_map protected
           (AccountService.findById id (AccountService.users s'))
         = option_map protected
             (AccountService.findById id (AccountService.users s)).
Proof.
  destruct (serve_UpdateUser ext (param "id" (params req)) (body req) s)
    as (u & s' & Hsvc & Hkeep).
  eexists _, s'. split.
  - apply (run_updateUser (AccountService.serve ext) req res s s' _ Hsvc).
  - split; [exact Hkeep|].
    intros id. now apply findById_protected.
Qed.

(** A patch that names the protected fields changes the name only. *)
Example updateUser_patch_with_isVerified :
  snd (run (AccountService.serve sampleExt)
         (updateUser
            (mkRequest [("id", "u")]
               (JObj [("firstName", JStr "Eve"); ("isVerified", JBool true);
                      ("verificationCode", JStr "000000")]))
            (freshResponse "u")) sampleStore)
  = AccountService.mkStore
      [AccountService.mkAccount "u" "Eve" "Lovelace" "a@x.com" "sha:pw123" false
         (Some "481516")] 1%N.
Proof. reflexivity. Qed.

(** ** Registration *)

(** C7. For every service result with a boolean [status], create answers 201
    exactly when the flag is true and 400 exactly when it is false.  Against
    the account service of the spec every registration resolves, never
    rejects, with such a flag, and a registration whose email is already
    stored comes back with the flag false and the store unchanged. *)
Theorem create_status_flag
  (T : Type) (svc : Service T) (t t' : T) (r : JsValue) (b : bool)
  (ext : AccountService.Collaborators) (s : AccountService.Store)
  (req : Request) (res : Response) :
  svc (UserService.CreateUser (body req)) t = (inr r, t') ->
  get_prop r "status" = inr (JBool b) ->
  (exists resp,
     run svc (create req res) t = (Resolved resp, t')
     /\ (statusCode resp = 201 <-> b = true)
     /\ (statusCode resp = 400 <-> b = false))
  /\ (exists ok r0 resp s',
        AccountService.serve ext (UserService.CreateUser (body req)) s
          = (inr r0, s')
        /\ get_prop r0 "status" = inr (JBool ok)
        /\ run (AccountService.serve ext) (create req res) s = (Resolved resp, s')
        /\ (statusCode resp = 201 <-> ok = true)
        /\ (statusCode resp = 400 <-> ok = false)
        /\ (forall reg,
              AccountService.decodeRegistration (body req) = Some reg ->
              AccountService.findByEmail (AccountService.reg_email reg)
                (AccountService.users s) <> None ->
              ok = false /\ s' = s)).
Proof.
  intros Hsvc Hb.
  assert (Hcodes : forall c : bool,
    ((if c then 201 else 400) = 201 <-> c = true)
    /\ ((if c then 201 else 400) = 400 <-> c = false)).
  { intros []; split; split; intros; congruence. }
  split.
  - apply get_prop_bool in Hb as (fs & -> & Hf).
    eexists. split; [apply (run_create svc req res t t' fs Hsvc)|].
    simpl. rewrite Hf. simpl. apply Hcodes.
  - destruct (serve_CreateUser ext (body req) s) as (ok & extra & s' & Hs & Hdup).
    eexists ok, _, _, s'. split; [exact Hs|].
    split; [reflexivity|].
    split; [apply (run_create (AccountService.serve ext) req res s s' _ Hs)|].
    simpl. split; [apply Hcodes|]. split; [apply Hcodes | exact Hdup].
Qed.

Lemma create_status_flag_witness :
  (exists resp,
     run (constService (JObj [("status", JBool true); ("message", JStr "ok")]))
         (create (mkRequest []
                    (JObj [("firstName", JStr "Bob"); ("lastName", JStr "Ross");
                           ("email", JStr "a@x.com"); ("password", JStr "pw")]))
                 (mkResponse JUndefined 200 None)) tt = (Resolved resp, tt)
     /\ (statusCode resp = 201 <-> true = true)
     /\ (statusCode resp = 400 <-> true = false))
  /\ exists resp,
       run (AccountService.serve sampleExt)
         (create (mkRequest []
                    (JObj [("firstName", JStr "Bob"); ("lastName", JStr "Ross");
                           ("email", JStr "a@x.com"); ("password", JStr "pw")]))
                 (mkResponse JUndefined 200 None)) sampleStore
       = (Resolved resp, sampleStore)
       /\ statusCode resp = 400.
Proof.
  destruct (create_status_flag unit
              (constService (JObj [("status", JBool true); ("message", JStr "ok")]))
              tt tt (JObj [("status", JBool true); ("message", JStr "ok")]) true
              sampleExt sampleStore
              (mkRequest []
                 (JObj [("firstName", JStr "Bob"); ("lastName", JStr "Ross");
                        ("email", JStr "a@x.com"); ("password", JStr "pw")]))
              (mkResponse JUndefined 200 None) eq_refl eq_refl)
    as [Hgen _].
  split; [exact Hgen|].
  eexists. split; reflexivity.
Defined.

(** ** Looking up and deleting an account that does not exist *)

(** Whatever the service resolves with, getUserById answers 200. *)
Lemma getUserById_always_200
  (S : Type) (svc : Service S) (s s' : S) (req : Request) (res : Response)
  (user : JsValue) :
  svc (UserService.GetUser (param "id" (params req))) s = (inr user, s') ->
  exists resp,
    run svc (getUserById req res) s = (Resolved resp, s')
    /\ statusCode resp = 200
    /\ sent resp = Some (toJSON (JObj [("data", user)])).
Proof.
  intros H. eexists. split; [apply (run_getUserById svc req res s s' user H)|].
  split; reflexivity.
Qed.

(** Against the account service of the spec, a lookup of an id that matches
    no record is answered 200 with [{data: null}]. *)
Lemma getUserById_not_found
  (ext : AccountService.Collaborators) (s : AccountService.Store)
  (req : Request) (res : Response) :
  lookupAccount (param "id" (params req)) s = None ->
  exists resp,
    run (AccountService.serve ext) (getUserById req res) s = (Resolved resp, s)
    /\ statusCode resp = 200
    /\ sent resp = Some (JObj [("data", JNull)]).
Proof.
  intros Hnone.
  pose proof (serve_GetUser ext (param "id" (params req)) s) as Hsvc.
  rewrite Hnone in Hsvc.
  eexists. split; [apply (run_getUserById _ req res s s _ Hsvc)|].
  split; reflexivity.
Qed.

(** C8. GET /users/nobody on a store that holds no such id: getUserById
    answers status 200 with [{data: null}], the status of a successful
    lookup, where updateUser answers the same missing id with 404 and
    "User not found". *)
Theorem getUserById_missing_id_reports_200 :
  lookupAccount (JStr "nobody") sampleStore = None
  /\ run (AccountService.serve sampleExt)
       (getUserById (mkRequest [("id", "nobody")] JUndefined) (freshResponse "u"))
       sampleStore
     = (Resolved (mkResponse (JObj [("id", JStr "u")]) 200
                    (Some (JObj [("data", JNull)]))), sampleStore)
  /\ statusCode (mkResponse (JObj [("id", JStr "u")]) 200
                   (Some (JObj [("data", JNull)])))
     = statusCode (json (JObj [("data", AccountService.view ada)])
                        (status 200 (freshResponse "u")))
  /\ run (AccountService.serve sampleExt)
       (updateUser (mkRequest [("id", "nobody")] (JObj [])) (freshResponse "u"))
       sampleStore
     = (Resolved (mkResponse (JObj [("id", JStr "u")]) 404
                    (Some (JObj [("message", JStr "User not found")]))),
        sampleStore).
Proof. repeat split. Qed.

(** C9. Against the account service of the spec, deleteUser always resolves
    with status 200.  For an id that matches no record the body is
    [{data: null}] and the store is unchanged; for an id that matches a
    record the body is [{data: record}], which differs from the former, and
    that record is removed. *)
Theorem deleteUser_indicates_nothing_existed
  (ext : AccountService.Collaborators) (s : AccountService.Store)
  (req : Request) (res : Response) :
  exists resp s',
    run (AccountService.serve ext) (deleteUser req res) s = (Resolved resp, s')
    /\ statusCode resp = 200
    /\ match lookupAccount (param "id" (params req)) s with
       | None => sent resp = Some (JObj [("data", JNull)]) /\ s' = s
       | Some u =>
           sent resp = Some (JObj [("data", AccountService.view u)])
           /\ sent resp <> Some (JObj [("data", JNull)])
           /\ s' = AccountService.mkStore
                     (AccountService.erase (AccountService.uid u)
                        (AccountService.users s))
                     (AccountService.entropy s)
       end.
Proof.
  pose proof (serve_DeleteUser ext (param "id" (params req)) s) as Hsvc.
  destruct (lookupAccount (param "id" (params req)) s) as [u|].
  - eexists _, _.
    split; [apply (run_deleteUser _ req res s _ _ Hsvc)|].
    split; [reflexivity|].
    assert (Hsent : sent (json (JObj [("data", AccountService.view u)])
                            (status 200 res))
                    = Some (JObj [("data", AccountService.view u)])).
    { simpl. destruct u as [i f l e p b [c|]]; reflexivity. }
    split; [exact Hsent|]. split; [|reflexivity].
    rewrite Hsent. discriminate.
  - eexists _, _.
    split; [apply (run_deleteUser _ req res s _ _ Hsvc)|].
    repeat split.
Qed.

(** Deleting a missing and a present id from the sample store. *)
Example deleteUser_missing_then_present :
  run (AccountService.serve sampleExt)
    (deleteUser (mkRequest [("id", "nobody")] JUndefined) (freshResponse "u"))
    sampleStore
  = (Resolved (mkResponse (JObj [("id", JStr "u")]) 200
                 (Some (JObj [("data", JNull)]))), sampleStore)
  /\ run (AccountService.serve sampleExt)
       (deleteUser (mkRequest [("id", "u")] JUndefined) (freshResponse "u"))
       sampleStore
     = (Resolved (mkResponse (JObj [("id", JStr "u")]) 200
                    (Some (JObj [("data", AccountService.view ada)]))),
        AccountService.mkStore [] 1%N).
Proof. split; reflexivity. Qed.

(** ** The generated code and the response *)



(** ** The verification code of a stored account *)

Lemma asString_JStr (v : JsValue) (i : string) : asString v = Some i -> v = JStr i.
Proof. destruct v; simpl; intros H; congruence. Qed.

(** C4. On the account model of the spec the verification code is
    nullable: an account is stored without a code when it is created, and a
    VerifyUser that succeeds, called directly or through the verifyUser
    handler answering 200, leaves the account verified and without a code. *)
Theorem verificationCode_is_nullable (ext : AccountService.Collaborators) :
  (forall reg s u s',
     AccountService.CreateUser ext reg s = (true, Some u, s') ->
     In u (AccountService.users s')
     /\ AccountService.acc_verificationCode u = None)
  /\ (forall id submitted s s',
        AccountService.VerifyUser id submitted s = (true, s') ->
        exists u,
          AccountService.findById id (AccountService.users s') = Some u
          /\ AccountService.acc_isVerified u = true
          /\ AccountService.acc_verificationCode u = None)
  /\ (forall req res s,
        statusOf (run (AccountService.serve ext) (verifyUser req res) s)
        = Some 200 ->
        exists i u,
          get_prop (locals_token res) "id" = inr (JStr i)
          /\ AccountService.findById i
               (AccountService.users
                  (snd (run (AccountService.serve ext) (verifyUser req res) s)))
             = Some u
          /\ AccountService.acc_isVerified u = true
          /\ AccountService.acc_verificationCode u = None).
Proof.
  split; [|split].
  - intros reg s u s'. unfold AccountService.CreateUser.
    destruct (AccountService.findByEmail _ _); intros H; [discriminate|].
    injection H as <- <-. simpl. split; [|reflexivity].
    apply in_or_app. right. left. reflexivity.
  - intros id submitted s s'. apply VerifyUser_clears_code.
  - intros req res s. unfold statusOf, verifyUser, prop, await.
    destruct (get_prop (locals_token res) "id") as [e|id]; simpl;
      [discriminate|].
    destruct (get_prop (body req) "code") as [e|code]; simpl; [discriminate|].
    destruct (asString id) as [i|] eqn:Ei; [|simpl; discriminate].
    destruct (asString code) as [cd|]; [|simpl; discriminate].
    destruct (AccountService.VerifyUser i cd s) as [ok s'] eqn:Ev.
    destruct ok; simpl; [|discriminate].
    intros _. apply asString_JStr in Ei. subst id.
    destruct (VerifyUser_clears_code i cd s s' Ev) as (u & Hu & Hv & Hc).
    exists i, u. repeat split; assumption.
Qed.

Lemma verificationCode_is_nullable_witness :
  statusOf (run (AccountService.serve sampleExt)
              (verifyUser (mkRequest [] (JObj [("code", JStr "481516")]))
                          (freshResponse "u")) sampleStore) = Some 200
  /\ exists i u,
       get_prop (locals_token (freshResponse "u")) "id" = inr (JStr i)
       /\ AccountService.findById i
            (AccountService.users
               (snd (run (AccountService.serve sampleExt)
                       (verifyUser (mkRequest [] (JObj [("code", JStr "481516")]))
                                   (freshResponse "u")) sampleStore)))
          = Some u
       /\ AccountService.acc_isVerified u = true
       /\ AccountService.acc_verificationCode u = None.
Proof.
  assert (H : statusOf (run (AccountService.serve sampleExt)
              (verifyUser (mkRequest [] (JObj [("code", JStr "481516")]))
                          (freshResponse "u")) sampleStore) = Some 200)
    by reflexivity.
  split; [exact H|].
  exact (proj2 (proj2 (verificationCode_is_nullable sampleExt))
           (mkRequest [] (JObj [("code", JStr "481516")]))
           (freshResponse "u") sampleStore H).
Defined.

(** * Further properties of the controller *)

Lemma get_prop_nullish (o : JsValue) (k : string) :
  nullish o = true -> get_prop o k = inl TypeError.
Proof. destruct o; simpl; intros H; try discriminate; reflexivity. Qed.

Lemma get_prop_defined (o : JsValue) (k : string) :
  nullish o = false -> exists v, get_prop o k = inr v.
Proof. destruct o; simpl; intros H; try discriminate; eexists; reflexivity. Qed.

Lemma get_prop_error (o : JsValue) (k : string) (e : JsError) :
  get_prop o k = inl e -> e = TypeError.
Proof. destruct o; simpl; intros H; congruence. Qed.

(** ** Handlers addressed by the URL *)

(** X1. getAllUsers, getUserById, updateUser and deleteUser never look at the
    decoded token: each makes one service call whose arguments come from the
    route parameter and the body alone, and replacing [res.locals.token] by
    any value, [undefined] included, changes neither that call nor the
    answer. *)
Theorem url_handlers_ignore_token
  (S : Type) (svc : Service S) (s : S) (req : Request) (res : Response)
  (tok : JsValue) :
  calls svc (getAllUsers req (withToken tok res)) s = [UserService.GetAllUsers]
  /\ calls svc (getUserById req (withToken tok res)) s
     = [UserService.GetUser (param "id" (params req))]
  /\ calls svc (updateUser req (withToken tok res)) s
     = [UserService.UpdateUser (param "id" (params req)) (body req)]
  /\ calls svc (deleteUser req (withToken tok res)) s
     = [UserService.DeleteUser (param "id" (params req))]
  /\ sameAnswer (run svc (getAllUsers req (withToken tok res)) s)
                (run svc (getAllUsers req res) s)
  /\ sameAnswer (run svc (getUserById req (withToken tok res)) s)
                (run svc (getUserById req res) s)
  /\ sameAnswer (run svc (updateUser req (withToken tok res)) s)
                (run svc (updateUser req res) s)
  /\ sameAnswer (run svc (deleteUser req (withToken tok res)) s)
                (run svc (deleteUser req res) s).
Proof.
  unfold sameAnswer, statusOf, bodyOf, errorOf.
  unfold getAllUsers, getUserById, updateUser, deleteUser, await. simpl.
  destruct (svc UserService.GetAllUsers s) as [[e1|v1] s1].
  all: destruct (svc (UserService.GetUser (param "id" (params req))) s)
         as [[e2|v2] s2].
  all: destruct (svc (UserService.UpdateUser (param "id" (params req))
                        (body req)) s) as [[e3|v3] s3].
  all: destruct (svc (UserService.DeleteUser (param "id" (params req))) s)
         as [[e4|v4] s4].
  all: try destruct (truthy v3); simpl; repeat split; reflexivity.
Qed.

(** ** Inputs that cannot be read *)

(** X2. When [res.locals.token] is undefined or null, requestVerification and
    verifyUser reject with a TypeError without calling the service; when
    [req.body] is undefined or null, login and verifyUser do.  The service
    state is untouched. *)
Theorem unreadable_input_rejects_before_service
  (S : Type) (svc : Service S) (s : S) (req : Request) (res : Response) :
  (nullish (locals_token res) = true ->
     run svc (requestVerification req res) s = (Rejected TypeError, s)
     /\ calls svc (requestVerification req res) s = []
     /\ run svc (verifyUser req res) s = (Rejected TypeError, s)
     /\ calls svc (verifyUser req res) s = [])
  /\ (nullish (body req) = true ->
        run svc (login req res) s = (Rejected TypeError, s)
        /\ calls svc (login req res) s = []
        /\ run svc (verifyUser req res) s = (Rejected TypeError, s)
        /\ calls svc (verifyUser req res) s = []).
Proof.
  split; intros H.
  - unfold requestVerification, verifyUser, prop.
    rewrite (get_prop_nullish _ "id" H). repeat split.
  - unfold login, verifyUser, prop.
    rewrite (get_prop_nullish _ "email" H), (get_prop_nullish _ "code" H).
    destruct (get_prop (locals_token res) "id") as [e|i] eqn:E;
      [apply get_prop_error in E; subst e|]; repeat split.
Qed.

Lemma unreadable_input_rejects_before_service_witness :
  (run (AccountService.serve sampleExt)
     (verifyUser (mkRequest [] (JObj [("code", JStr "481516")]))
                 (mkResponse JUndefined 200 None)) sampleStore
   = (Rejected TypeError, sampleStore))
  /\ (run (AccountService.serve sampleExt)
        (login (mkRequest [] JUndefined) (freshResponse "u")) sampleStore
      = (Rejected TypeError, sampleStore)).
Proof.
  split.
  - apply (proj1 (unreadable_input_rejects_before_service _
                    (AccountService.serve sampleExt) sampleStore
                    (mkRequest [] (JObj [("code", JStr "481516")]))
                    (mkResponse JUndefined 200 None))).
    reflexivity.
  - apply (proj2 (unreadable_input_rejects_before_service _
                    (AccountService.serve sampleExt) sampleStore
                    (mkRequest [] JUndefined) (freshResponse "u"))).
    reflexivity.
Defined.

(** ** Login *)

(** X3. login hands the service [body.email] and [body.password] exactly as
    they arrived, [undefined] for a property the body lacks; it reads neither
    the route parameters nor the decoded token. *)
Theorem login_forwards_credentials
  (S : Type) (svc : Service S) (s : S) (req : Request) (res : Response)
  (ps : list (string * string)) (tok : JsValue) :
  calls svc (login req res) s =
    match get_prop (body req) "email", get_prop (body req) "password" with
    | inr e, inr p => [UserService.login e p]
    | _, _ => []
    end
  /\ (forall fs, body req = JObj fs ->
        calls svc (login req res) s
        = [UserService.login (lookup_field "email" fs)
             (lookup_field "password" fs)])
  /\ login (mkRequest ps (body req)) res = login req res
  /\ sameAnswer (run svc (login req (withToken tok res)) s)
                (run svc (login req res) s).
Proof.
  assert (Hcalls : calls svc (login req res) s =
    match get_prop (body req) "email", get_prop (body req) "password" with
    | inr e, inr p => [UserService.login e p]
    | _, _ => []
    end).
  { unfold login, prop, await.
    destruct (get_prop (body req) "email") as [e|e]; simpl; [reflexivity|].
    destruct (get_prop (body req) "password") as [e'|p]; simpl; [reflexivity|].
    destruct (svc (UserService.login e p) s) as [[e'|r] s']; [reflexivity|].
    destruct r; simpl; try reflexivity.
    destruct (truthy (lookup_field "status" fields)); reflexivity. }
  split; [exact Hcalls|].
  split; [intros fs Hfs; rewrite Hcalls, Hfs; reflexivity|].
  split; [reflexivity|].
  unfold sameAnswer, statusOf, bodyOf, errorOf, login, prop, await.
  destruct (get_prop (body req) "email") as [e|e]; simpl; [repeat split|].
  destruct (get_prop (body req) "password") as [e'|p]; simpl; [repeat split|].
  destruct (svc (UserService.login e p) s) as [[e'|r] s']; [repeat split|].
  destruct r; simpl; try (repeat split; reflexivity).
  destruct (truthy (lookup_field "status" fields)); repeat split.
Qed.

Lemma login_forwards_credentials_witness :
  calls (AccountService.serve sampleExt)
    (login (mkRequest [("id", "u")] (JObj [("email", JStr "a@x.com")]))
           (freshResponse "u")) sampleStore
  = [UserService.login (JStr "a@x.com") JUndefined].
Proof.
  apply (proj1 (proj2 (login_forwards_credentials _
                         (AccountService.serve sampleExt) sampleStore
                         (mkRequest [("id", "u")] (JObj [("email", JStr "a@x.com")]))
                         (freshResponse "u") [] JUndefined))
           [("email", JStr "a@x.com")]).
  reflexivity.
Defined.

(** ** A service that resolves with nothing *)

(** X4. When the service resolves the call a handler makes with [null] or
    [undefined], create, login, requestVerification and verifyUser reject
    with a TypeError after the call was made, so the state the service left
    stands and no response is sent; getAllUsers, getUserById and deleteUser
    answer 200 and updateUser answers 404. *)
Theorem nullish_service_result
  (S : Type) (svc : Service S) (s s' : S) (req : Request) (res : Response)
  (r : JsValue) :
  nullish r = true ->
  (svc (UserService.CreateUser (body req)) s = (inr r, s') ->
   run svc (create req res) s = (Rejected TypeError, s'))
  /\ (forall e p,
        get_prop (body req) "email" = inr e ->
        get_prop (body req) "password" = inr p ->
        svc (UserService.login e p) s = (inr r, s') ->
        run svc (login req res) s = (Rejected TypeError, s'))
  /\ (forall id,
        get_prop (locals_token res) "id" = inr id ->
        svc (UserService.requestVerificationCode id) s = (inr r, s') ->
        run svc (requestVerification req res) s = (Rejected TypeError, s'))
  /\ (forall id code,
        get_prop (locals_token res) "id" = inr id ->
        get_prop (body req) "code" = inr code ->
        svc (UserService.verifyUser id code) s = (inr r, s') ->
        run svc (verifyUser req res) s = (Rejected TypeError, s'))
  /\ (svc UserService.GetAllUsers s = (inr r, s') ->
      statusOf (run svc (getAllUsers req res) s) = Some 200
      /\ snd (run svc (getAllUsers req res) s) = s')
  /\ (svc (UserService.GetUser (param "id" (params req))) s = (inr r, s') ->
      statusOf (run svc (getUserById req res) s) = Some 200
      /\ snd (run svc (getUserById req res) s) = s')
  /\ (svc (UserService.DeleteUser (param "id" (params req))) s = (inr r, s') ->
      statusOf (run svc (deleteUser req res) s) = Some 200
      /\ snd (run svc (deleteUser req res) s) = s')
  /\ (svc (UserService.UpdateUser (param "id" (params req)) (body req)) s
        = (inr r, s') ->
      statusOf (run svc (updateUser req res) s) = Some 404
      /\ bodyOf (run svc (updateUser req res) s)
         = Some (JObj [("message", JStr "User not found")])
      /\ snd (run svc (updateUser req res) s) = s').
Proof.
  intros Hr.
  unfold statusOf, bodyOf.
  unfold create, login, requestVerification, verifyUser, getAllUsers,
    getUserById, deleteUser, updateUser, prop, await.
  repeat split.
  all: intros; simpl;
    repeat match goal with
           | H : get_prop _ _ = inr _ |- _ => rewrite H; clear H; simpl
           | H : _ = (inr _, _) |- _ => rewrite H; clear H; simpl
           end;
    destruct r; try discriminate; reflexivity.
Qed.

Lemma nullish_service_result_witness :
  run (constService JNull)
    (create (mkRequest [] (JObj [("email", JStr "a@x.com")]))
            (mkResponse JUndefined 200 None)) tt
  = (Rejected TypeError, tt)
  /\ statusOf (run (constService JNull)
                 (getUserById (mkRequest [("id", "nobody")] JUndefined)
                              (freshResponse "u")) tt) = Some 200.
Proof.
  split.
  - apply (proj1 (nullish_service_result unit (constService JNull) tt tt
                    (mkRequest [] (JObj [("email", JStr "a@x.com")]))
                    (mkResponse JUndefined 200 None) JNull eq_refl)).
    reflexivity.
  - apply (proj1 (proj2 (proj2 (proj2 (proj2 (proj2
             (nullish_service_result unit (constService JNull) tt tt
                (mkRequest [("id", "nobody")] JUndefined)
                (freshResponse "u") JNull eq_refl))))))).
    reflexivity.
Defined.

(** ** Status codes *)

Ltac handler_cases svc :=
  repeat match goal with
         | |- context [get_prop ?o ?k] => destruct (get_prop o k); simpl
         | |- context [svc ?c ?s] => destruct (svc c s) as [[?|?] ?]; simpl
         | |- context [truthy ?v] => destruct (truthy v); simpl
         end.

(** X5. Whatever the service does, a handler that answers does so with a
    body and with one of its own status codes: create with 201 or 400, login
    with 200 or 404, requestVerification and verifyUser with 200 or 500,
    updateUser with 200 or 404, and getAllUsers, getUserById and deleteUser
    with 200 only. *)
Theorem handlers_status_codes
  (S : Type) (svc : Service S) (s : S) (req : Request) (res : Response) (c : Z) :
  (statusOf (run svc (create req res) s) = Some c -> In c [201; 400])
  /\ (statusOf (run svc (login req res) s) = Some c -> In c [200; 404])
  /\ (statusOf (run svc (requestVerification req res) s) = Some c ->
      In c [200; 500])
  /\ (statusOf (run svc (verifyUser req res) s) = Some c -> In c [200; 500])
  /\ (statusOf (run svc (updateUser req res) s) = Some c -> In c [200; 404])
  /\ (statusOf (run svc (getAllUsers req res) s) = Some c -> c = 200)
  /\ (statusOf (run svc (getUserById req res) s) = Some c -> c = 200)
  /\ (statusOf (run svc (deleteUser req res) s) = Some c -> c = 200)
  /\ (forall h,
        In h [create; login; requestVerification; verifyUser; updateUser;
              getAllUsers; getUserById; deleteUser] ->
        statusOf (run svc (h req res) s) = Some c ->
        bodyOf (run svc (h req res) s) <> None).
Proof.
  unfold statusOf, bodyOf.
  repeat split.
  1-8: unfold create, login, requestVerification, verifyUser, updateUser,
         getAllUsers, getUserById, deleteUser, prop, await; simpl;
       handler_cases svc; intros H; inversion H; simpl; tauto.
  intros h Hin.
  simpl in Hin.
  repeat (destruct Hin as [<-|Hin]); try contradiction;
    unfold create, login, requestVerification, verifyUser, updateUser,
      getAllUsers, getUserById, deleteUser, prop, await; simpl;
    handler_cases svc; intros H; discriminate.
Qed.

Lemma handlers_status_codes_witness :
  statusOf (run (AccountService.serve sampleExt)
              (verifyUser (mkRequest [] (JObj [("code", JStr "000000")]))
                          (freshResponse "u")) sampleStore) = Some 500
  /\ In 500 [200; 500].
Proof.
  assert (H : statusOf (run (AccountService.serve sampleExt)
              (verifyUser (mkRequest [] (JObj [("code", JStr "000000")]))
                          (freshResponse "u")) sampleStore) = Some 500)
    by reflexivity.
  split; [exact H|].
  exact (proj1 (proj2 (proj2 (proj2
           (handlers_status_codes _ (AccountService.serve sampleExt) sampleStore
              (mkRequest [] (JObj [("code", JStr "000000")]))
              (freshResponse "u") 500)))) H).
Defined.

(** ** Update *)

(** X6. updateUser answers 404 with the fixed body
    [{message: "User not found"}] exactly when the service resolves with a
    falsy value (null, undefined, false, 0 or the empty string), and 200 with
    the value under [data] otherwise. *)
Theorem updateUser_not_found_iff_falsy
  (S : Type) (svc : Service S) (s s' : S) (req : Request) (res : Response)
  (user : JsValue) :
  svc (UserService.UpdateUser (param "id" (params req)) (body req)) s
    = (inr user, s') ->
  snd (run svc (updateUser req res) s) = s'
  /\ (statusOf (run svc (updateUser req res) s) = Some 404 <-> truthy user = false)
  /\ (statusOf (run svc (updateUser req res) s) = Some 200 <-> truthy user = true)
  /\ (truthy user = false ->
      bodyOf (run svc (updateUser req res) s)
      = Some (JObj [("message", JStr "User not found")]))
  /\ (truthy user = true ->
      bodyOf (run svc (updateUser req res) s)
      = Some (JObj [("data", toJSON user)])).
Proof.
  intros H. rewrite (run_updateUser svc req res s s' user H).
  unfold statusOf, bodyOf. simpl.
  destruct (truthy user) eqn:E; simpl.
  - split; [reflexivity|]. split; [split; intros; discriminate|].
    split; [tauto|]. split; [intros; discriminate|].
    intros _. destruct user; try discriminate; reflexivity.
  - split; [reflexivity|]. split; [tauto|].
    split; [split; intros; discriminate|]. split; [reflexivity|].
    intros; discriminate.
Qed.

Lemma updateUser_not_found_iff_falsy_witness :
  statusOf (run (constService (JStr ""))
              (updateUser (mkRequest [("id", "u")] (JObj [])) (freshResponse "u"))
              tt) = Some 404.
Proof.
  apply (proj1 (proj2 (updateUser_not_found_iff_falsy unit (constService (JStr ""))
                         tt tt (mkRequest [("id", "u")] (JObj []))
                         (freshResponse "u") (JStr "") eq_refl))).
  reflexivity.
Defined.

(** ** Flags the result does not carry *)

(** X7. The flag of a result is tested for truth, so a result object
    without the flag counts as a failure: without [status], create answers
    400, login 404 and requestVerification 500; without [verified],
    verifyUser answers 500 whatever [status] the result carries. *)
Theorem missing_flag_is_failure
  (S : Type) (svc : Service S) (s s' : S) (req : Request) (res : Response)
  (fs : list (string * JsValue)) :
  (lookup_field "status" fs = JUndefined ->
     (svc (UserService.CreateUser (body req)) s = (inr (JObj fs), s') ->
      statusOf (run svc (create req res) s) = Some 400)
     /\ (forall e p,
           get_prop (body req) "email" = inr e ->
           get_prop (body req) "password" = inr p ->
           svc (UserService.login e p) s = (inr (JObj fs), s') ->
           statusOf (run svc (login req res) s) = Some 404)
     /\ (forall id,
           get_prop (locals_token res) "id" = inr id ->
           svc (UserService.requestVerificationCode id) s = (inr (JObj fs), s') ->
           statusOf (run svc (requestVerification req res) s) = Some 500))
  /\ (lookup_field "verified" fs = JUndefined ->
      forall id code,
        get_prop (locals_token res) "id" = inr id ->
        get_prop (body req) "code" = inr code ->
        svc (UserService.verifyUser id code) s = (inr (JObj fs), s') ->
        statusOf (run svc (verifyUser req res) s) = Some 500).
Proof.
  split; intros Hflag.
  - split; [|split].
    + intros H. rewrite (run_create svc req res s s' fs H).
      rewrite Hflag. reflexivity.
    + intros e p He Hp H.
      rewrite (run_login svc req res s s' e p fs He Hp H).
      rewrite Hflag. reflexivity.
    + intros id Hid H.
      rewrite (run_requestVerification svc req res s s' id fs Hid H).
      rewrite Hflag. reflexivity.
  - intros id code Hid Hcode H.
    rewrite (run_verifyUser svc req res s s' id code fs Hid Hcode H).
    rewrite Hflag. reflexivity.
Qed.

Lemma missing_flag_is_failure_witness :
  statusOf (run (constService (JObj [("verified", JBool true)]))
              (create (mkRequest [] (JObj []))
                      (mkResponse JUndefined 200 None)) tt)
  = Some 400
  /\ statusOf (run (constService (JObj [("status", JBool true)]))
                 (verifyUser (mkRequest [] (JObj [])) (freshResponse "u")) tt)
     = Some 500.
Proof.
  split.
  - apply (proj1 (proj1 (missing_flag_is_failure unit
                           (constService (JObj [("verified", JBool true)])) tt tt
                           (mkRequest [] (JObj []))
                           (mkResponse JUndefined 200 None)
                           [("verified", JBool true)]) eq_refl)).
    reflexivity.
  - apply (proj2 (missing_flag_is_failure unit
                    (constService (JObj [("status", JBool true)])) tt tt
                    (mkRequest [] (JObj [])) (freshResponse "u")
                    [("status", JBool true)]) eq_refl (JStr "u") JUndefined);
      reflexivity.
Defined.

(** ** What a registration response discloses *)

Lemma keys_message_data (m d : JsValue) (k : string) :
  In k (keys (toJSON (JObj [("message", m); ("data", d)]))) ->
  k = "message" \/ (k = "data" /\ d <> JUndefined).
Proof.
  destruct m, d; simpl; intros H;
    repeat (destruct H as [H|H]; [subst k|]); try contradiction;
    try (left; reflexivity); right; split; try reflexivity; discriminate.
Qed.

(** X8. The body create sends has no property other than [message] and
    [data], and [data] only when the result carries one; two results that
    agree on the message, on the data and on the truth of [status] are
    answered alike, so nothing else of the result reaches the client. *)
Theorem create_discloses_message_and_data_only
  (S : Type) (svc svc' : Service S) (s s1 s2 : S) (req : Request) (res : Response)
  (fs fs' : list (string * JsValue)) :
  svc (UserService.CreateUser (body req)) s = (inr (JObj fs), s1) ->
  svc' (UserService.CreateUser (body req)) s = (inr (JObj fs'), s2) ->
  lookup_field "message" fs' = lookup_field "message" fs ->
  lookup_field "data" fs' = lookup_field "data" fs ->
  truthy (lookup_field "status" fs') = truthy (lookup_field "status" fs) ->
  statusOf (run svc' (create req res) s) = statusOf (run svc (create req res) s)
  /\ bodyOf (run svc' (create req res) s) = bodyOf (run svc (create req res) s)
  /\ exists b,
       bodyOf (run svc (create req res) s) = Some b
       /\ (forall k, In k (keys b) ->
             k = "message" \/ (k = "data" /\ lookup_field "data" fs <> JUndefined)).
Proof.
  intros H H' Hm Hd Hs.
  rewrite (run_create svc' req res s s2 fs' H').
  rewrite (run_create svc req res s s1 fs H).
  unfold statusOf, bodyOf. simpl fst. rewrite Hm, Hd, Hs.
  split; [reflexivity|]. split; [reflexivity|].
  eexists. split; [reflexivity|]. apply keys_message_data.
Qed.

Lemma create_discloses_message_and_data_only_witness :
  bodyOf (run (constService (JObj [("status", JBool false);
                                   ("message", JStr "User creation failed");
                                   ("password", JStr "sha:pw")]))
            (create (mkRequest [] (JObj [])) (freshResponse "u")) tt)
  = bodyOf (run (constService (JObj [("status", JBool false);
                                     ("message", JStr "User creation failed")]))
              (create (mkRequest [] (JObj [])) (freshResponse "u")) tt).
Proof.
  apply (create_discloses_message_and_data_only unit
           (constService (JObj [("status", JBool false);
                                ("message", JStr "User creation failed")]))
           (constService (JObj [("status", JBool false);
                                ("message", JStr "User creation failed");
                                ("password", JStr "sha:pw")]))
           tt tt tt (mkRequest [] (JObj [])) (freshResponse "u")
           [("status", JBool false); ("message", JStr "User creation failed")]
           [("status", JBool false); ("message", JStr "User creation failed");
            ("password", JStr "sha:pw")]); reflexivity.
Defined.

(** ** Running the routes *)

(** X9. On every route other than register and login the handler runs only
    if the token middleware calls [next()], and then on the request and
    response the middleware handed over; if it ends the response or fails,
    the service is not called.  The validation middleware plays no part on
    these routes. *)
Theorem guarded_routes_need_token
  (mw : Middlewares) (r : Route) (req : Request) (res : Response) :
  In r initRoutes ->
  ~ public r ->
  exists h,
    In (catchAsyncError h) (callbacks r)
    /\ runCallbacks mw (callbacks r) req res = continue (jwt mw req res) h
    /\ (passes (jwt mw req res) = false ->
        forall (S : Type) (svc : Service S) (s : S),
          calls svc (runCallbacks mw (callbacks r) req res) s = []
          /\ snd (run svc (runCallbacks mw (callbacks r) req res) s) = s).
Proof.
  intros Hin Hpub.
  assert (Hrun : forall m p h,
    exists h0,
      In (catchAsyncError h0)
         (callbacks (mkRoute m p [jwtTokenRequiringMiddleware; catchAsyncError h]))
      /\ runCallbacks mw
           (callbacks (mkRoute m p [jwtTokenRequiringMiddleware; catchAsyncError h]))
           req res = continue (jwt mw req res) h0
      /\ (passes (jwt mw req res) = false ->
          forall (S : Type) (svc : Service S) (s : S),
            calls svc (runCallbacks mw
              (callbacks (mkRoute m p [jwtTokenRequiringMiddleware;
                                       catchAsyncError h])) req res) s = []
            /\ snd (run svc (runCallbacks mw
              (callbacks (mkRoute m p [jwtTokenRequiringMiddleware;
                                       catchAsyncError h])) req res) s) = s)).
  { intros m p h. exists h. simpl.
    split; [right; left; reflexivity|]. split; [reflexivity|].
    destruct (jwt mw req res); simpl; intros Hp; try discriminate;
      intros; split; reflexivity. }
  simpl in Hin.
  repeat (destruct Hin as [<-|Hin]); try contradiction; try apply Hrun;
    exfalso; apply Hpub; (split; [reflexivity | simpl; tauto]).
Qed.

Lemma guarded_routes_need_token_witness :
  runCallbacks sampleMiddlewares
    [jwtTokenRequiringMiddleware; catchAsyncError deleteUser]
    (mkRequest [("id", "u")] JUndefined) (mkResponse JUndefined 200 None)
  = Ret (mkResponse JUndefined 401 (Some (JObj [("message", JStr "Unauthorized")])))
  /\ calls (AccountService.serve sampleExt)
       (runCallbacks sampleMiddlewares
          [jwtTokenRequiringMiddleware; catchAsyncError deleteUser]
          (mkRequest [("id", "u")] JUndefined) (mkResponse JUndefined 200 None))
       sampleStore = [].
Proof.
  assert (Hin : In (mkRoute DELETE "/users/:id"
                      [jwtTokenRequiringMiddleware; catchAsyncError deleteUser])
                   initRoutes) by (simpl; tauto).
  assert (Hpub : ~ public (mkRoute DELETE "/users/:id"
                      [jwtTokenRequiringMiddleware; catchAsyncError deleteUser])).
  { intros [Hv _]. discriminate. }
  destruct (guarded_routes_need_token sampleMiddlewares _
              (mkRequest [("id", "u")] JUndefined)
              (mkResponse JUndefined 200 None) Hin Hpub)
    as (h & _ & _ & Hstop).
  split; [reflexivity|].
  apply (Hstop eq_refl).
Defined.

(** X10. On register and login the handler runs only if the validation
    middleware calls [next()]: create behind the create schema, login behind
    the login schema.  The token middleware plays no part on these routes. *)
Theorem public_routes_need_validation
  (mw : Middlewares) (r : Route) (req : Request) (res : Response) :
  In r initRoutes ->
  public r ->
  (route r = "/users/register" ->
   runCallbacks mw (callbacks r) req res
   = continue (validation mw UserSchemas_create req res) create)
  /\ (route r = "/users/login" ->
      runCallbacks mw (callbacks r) req res
      = continue (validation mw UserSchemas_login req res) login)
  /\ (passes (validation mw UserSchemas_create req res) = false ->
      passes (validation mw UserSchemas_login req res) = false ->
      forall (S : Type) (svc : Service S) (s : S),
        calls svc (runCallbacks mw (callbacks r) req res) s = []).
Proof.
  intros Hin [Hv Hr].
  simpl in Hin.
  repeat (destruct Hin as [<-|Hin]); try contradiction; simpl in *;
    try (destruct Hr; discriminate).
  - split; [reflexivity|]. split; [discriminate|].
    intros Hc _ S svc s.
    destruct (validation mw UserSchemas_create req res); simpl in *;
      try discriminate; reflexivity.
  - split; [discriminate|]. split; [reflexivity|].
    intros _ Hl S svc s.
    destruct (validation mw UserSchemas_login req res); simpl in *;
      try discriminate; reflexivity.
Qed.

Lemma public_routes_need_validation_witness :
  runCallbacks sampleMiddlewares
    [validationMiddleware UserSchemas_login; catchAsyncError login]
    (mkRequest [] (JObj [])) (freshResponse "u")
  = login (mkRequest [] (JObj [])) (freshResponse "u").
Proof.
  assert (Hin : In (mkRoute POST "/users/login"
                      [validationMiddleware UserSchemas_login;
                       catchAsyncError login]) initRoutes) by (simpl; tauto).
  assert (Hpub : public (mkRoute POST "/users/login"
                      [validationMiddleware UserSchemas_login;
                       catchAsyncError login])).
  { split; [reflexivity | right; reflexivity]. }
  apply (proj1 (proj2 (public_routes_need_validation sampleMiddlewares _
                         (mkRequest [] (JObj [])) (freshResponse "u")
                         Hin Hpub))).
  reflexivity.
Defined.

(** ** Choosing a route *)

(** X11. Whatever the router's pattern matching, a PUT whose path matches
    [/users/verify-user] is routed to verifyUser even when it also matches
    [/users/:id], which is registered after it; a PUT that matches only
    [/users/:id] is routed to updateUser; and a GET that matches [/users] is
    routed to getAllUsers. *)
Theorem verify_user_route_takes_precedence
  (matches : string -> string -> bool) (url : string) :
  (matches "/users/verify-user" url = true ->
   dispatch matches PUT url
   = Some (mkRoute PUT "/users/verify-user"
             [jwtTokenRequiringMiddleware; catchAsyncError verifyUser]))
  /\ (matches "/users/verify-user" url = false ->
      matches "/users/:id" url = true ->
      dispatch matches PUT url
      = Some (mkRoute PUT "/users/:id"
                [jwtTokenRequiringMiddleware; catchAsyncError updateUser]))
  /\ (matches "/users" url = true ->
      dispatch matches GET url
      = Some (mkRoute GET "/users"
                [jwtTokenRequiringMiddleware; catchAsyncError getAllUsers])).
Proof.
  unfold dispatch, initRoutes, path. simpl.
  split; [|split].
  - intros ->. reflexivity.
  - intros -> ->. reflexivity.
  - intros ->. reflexivity.
Qed.

Lemma verify_user_route_takes_precedence_witness :
  sampleMatches "/users/:id" "/users/verify-user" = true
  /\ dispatch sampleMatches PUT "/users/verify-user"
     = Some (mkRoute PUT "/users/verify-user"
               [jwtTokenRequiringMiddleware; catchAsyncError verifyUser]).
Proof.
  split; [reflexivity|].
  apply (proj1 (verify_user_route_takes_precedence sampleMatches
                  "/users/verify-user")).
  reflexivity.
Defined.

(** ** The verification routes from end to end *)

(** X12. On the two verification routes, once the token middleware has
    called [next()], the one service call is aimed at the id found in the
    [res.locals.token] the middleware handed over; for verifyUser the code
    comes from the body it handed over, and requestVerification reads no
    body at all.  Nothing else of the request decides the call. *)
Theorem verification_routes_end_to_end
  (mw : Middlewares) (req req' : Request) (res res' : Response)
  (S : Type) (svc : Service S) (s : S) (id : JsValue) :
  jwt mw req res = Next req' res' ->
  get_prop (locals_token res') "id" = inr id ->
  (forall r, In r initRoutes -> verb r = POST ->
     route r = "/users/request-verification-code" ->
     calls svc (runCallbacks mw (callbacks r) req res) s
     = [UserService.requestVerificationCode id])
  /\ (forall r code, In r initRoutes -> verb r = PUT ->
        route r = "/users/verify-user" ->
        get_prop (body req') "code" = inr code ->
        calls svc (runCallbacks mw (callbacks r) req res) s
        = [UserService.verifyUser id code]).
Proof.
  intros Hjwt Hid.
  split.
  - intros r Hin Hv Hr; simpl in Hin;
      repeat (destruct Hin as [<-|Hin]); try contradiction;
      simpl in Hv, Hr; try discriminate; simpl; rewrite Hjwt; simpl.
    rewrite calls_requestVerification, Hid. reflexivity.
  - intros r code Hin Hv Hr Hcode; simpl in Hin;
      repeat (destruct Hin as [<-|Hin]); try contradiction;
      simpl in Hv, Hr; try discriminate; simpl; rewrite Hjwt; simpl.
    rewrite calls_verifyUser, Hid, Hcode. reflexivity.
Qed.

Lemma verification_routes_end_to_end_witness :
  calls (AccountService.serve sampleExt)
    (runCallbacks
       (mkMiddlewares (fun _ rq rs => Next rq rs)
          (fun rq rs => Next rq (withToken (JObj [("id", JStr "u")]) rs)))
       [jwtTokenRequiringMiddleware; catchAsyncError requestVerification]
       (mkRequest [] JUndefined) (mkResponse JUndefined 200 None)) sampleStore
  = [UserService.requestVerificationCode (JStr "u")]
  /\ calls (AccountService.serve sampleExt)
       (runCallbacks sampleMiddlewares
          [jwtTokenRequiringMiddleware; catchAsyncError verifyUser]
          (mkRequest []
             (JObj [("code", JStr "481516"); ("id", JStr "someone-else")]))
          (mkResponse JUndefined 200 None)) sampleStore
     = [UserService.verifyUser (JStr "u") (JStr "481516")].
Proof.
  assert (Hin1 : In (mkRoute POST "/users/request-verification-code"
                       [jwtTokenRequiringMiddleware;
                        catchAsyncError requestVerification]) initRoutes)
    by (simpl; tauto).
  assert (Hin2 : In (mkRoute PUT "/users/verify-user"
                       [jwtTokenRequiringMiddleware; catchAsyncError verifyUser])
                    initRoutes) by (simpl; tauto).
  split.
  - apply (proj1 (verification_routes_end_to_end
                    (mkMiddlewares (fun _ rq rs => Next rq rs)
                       (fun rq rs =>
                          Next rq (withToken (JObj [("id", JStr "u")]) rs)))
                    (mkRequest [] JUndefined) (mkRequest [] JUndefined)
                    (mkResponse JUndefined 200 None)
                    (withToken (JObj [("id", JStr "u")])
                       (mkResponse JUndefined 200 None))
                    _ (AccountService.serve sampleExt) sampleStore
                    (JStr "u") eq_refl eq_refl)
             _ Hin1 eq_refl eq_refl).
  - apply (proj2 (verification_routes_end_to_end sampleMiddlewares
                    (mkRequest []
                       (JObj [("code", JStr "481516"); ("id", JStr "someone-else")]))
                    (mkRequest []
                       (JObj [("code", JStr "481516"); ("id", JStr "someone-else")]))
                    (mkResponse JUndefined 200 None)
                    (mkResponse (JObj [("id", JStr "u")]) 200 None)
                    _ (AccountService.serve sampleExt) sampleStore
                    (JStr "u") eq_refl eq_refl)
             _ (JStr "481516") Hin2 eq_refl eq_refl eq_refl).
Defined.

(** ** Registration *)

(** X13. create hands the service the request body as it arrived, without
    reading it: the call is made even when the body is undefined, and
    neither the route parameters nor the decoded token play a part. *)
Theorem create_forwards_body
  (S : Type) (svc : Service S) (s : S) (req : Request) (res : Response)
  (ps : list (string * string)) (tok : JsValue) :
  calls svc (create req res) s = [UserService.CreateUser (body req)]
  /\ create (mkRequest ps (body req)) res = create req res
  /\ sameAnswer (run svc (create req (withToken tok res)) s)
                (run svc (create req res) s).
Proof.
  unfold sameAnswer, statusOf, bodyOf, errorOf, create, prop, await. simpl.
  destruct (svc (UserService.CreateUser (body req)) s) as [[e|r] s'];
    [repeat split|].
  destruct r; simpl; repeat split.
Qed.
